(** * Attention layers of praxis: masks, logit capping, dot-product attention,
    the decode cache and lazy prefix broadcast.

    Shallow embedding of [praxis/layers/attentions.py].  Floating-point tensors
    are read over the real numbers (a cast between float types is the identity
    on values); integer tensors are read over [Z].  A tensor is its shape
    together with the function from a multi-index to the element stored there,
    so statements about tensors are statements about every in-range index. *)

From Stdlib Require Import Reals Lra Lia ZArith Ascii.
From stdpp Require Import gmap strings list fin_maps pretty.

(** ** Exceptions *)

Inductive exn : Type :=
  | AssertionError
  | NotImplementedError
  | ValueError.

Definition result (A : Type) : Type := exn + A.

Definition ret {A} (a : A) : result A := inr a.
Definition raise {A} (e : exn) : result A := inl e.
Definition bind {A B} (m : result A) (k : A → result B) : result B :=
  match m with
  | inl e => inl e
  | inr a => k a
  end.

Notation "x <-- m ;; k" := (bind m (λ x, k))
  (at level 100, m at next level, right associativity).
Notation "'assert!' c ;; k" := (if c then k else raise AssertionError)
  (at level 100, c at next level, right associativity).

(** ** Tensors *)

Module Tensor.

Record JTensor (A : Type) : Type := mkTensor {
  shape : list nat;
  data : list nat → A
}.
Arguments mkTensor {A} _ _.
Arguments shape {A} _.
Arguments data {A} _ _.

Definition ndim {A} (x : JTensor A) : nat := length (shape x).

(** [idx] addresses an element of a tensor of shape [sh]. *)
Definition valid_index (sh idx : list nat) : Prop := Forall2 lt idx sh.

Definition zeros (sh : list nat) : JTensor R := mkTensor sh (λ _, 0%R).

Definition tmap {A B} (f : A → B) (x : JTensor A) : JTensor B :=
  mkTensor (shape x) (λ idx, f (data x idx)).

(** numpy broadcasting: shapes are aligned on the right, a dimension of
    size 1 is stretched. *)
Fixpoint broadcast_rev (s1 s2 : list nat) : list nat :=
  match s1, s2 with
  | [], _ => s2
  | _, [] => s1
  | d1 :: r1, d2 :: r2 => (if d1 =? 1 then d2 else d1) :: broadcast_rev r1 r2
  end.

Definition broadcast_shapes (s1 s2 : list nat) : list nat :=
  reverse (broadcast_rev (reverse s1) (reverse s2)).

Definition bc_index (sh idx : list nat) : list nat :=
  zip_with (λ d i, if d =? 1 then 0 else i) sh
           (drop (length idx - length sh) idx).

Definition tmap2 {A B C} (f : A → B → C) (x : JTensor A) (y : JTensor B)
  : JTensor C :=
  mkTensor (broadcast_shapes (shape x) (shape y))
           (λ idx, f (data x (bc_index (shape x) idx))
                     (data y (bc_index (shape y) idx))).

(** [jnp.expand_dims(x, axis)] and [x[..., jnp.newaxis, ...]]. *)
Definition expand_dims {A} (axis : nat) (x : JTensor A) : JTensor A :=
  mkTensor (take axis (shape x) ++ 1 :: drop axis (shape x))
           (λ idx, data x (delete axis idx)).

(** [jnp.squeeze(x, axis)]. *)
Definition squeeze {A} (axis : nat) (x : JTensor A) : JTensor A :=
  mkTensor (delete axis (shape x))
           (λ idx, data x (take axis idx ++ 0 :: drop axis idx)).

(** Element [i] of a shape or of a multi-index. *)
Definition ix (l : list nat) (i : nat) : nat := nth i l 0.

Fixpoint index_of (j : nat) (axes : list nat) : nat :=
  match axes with
  | [] => 0
  | a :: rest => if a =? j then 0 else S (index_of j rest)
  end.

(** [jnp.transpose(x, axes)]: output dimension [i] is input dimension
    [axes[i]]. *)
Definition transpose {A} (axes : list nat) (x : JTensor A) : JTensor A :=
  mkTensor ((λ a, ix (shape x) a) <$> axes)
           (λ idx, data x ((λ j, ix idx (index_of j axes))
                             <$> seq 0 (length axes))).

(** [jnp.arange(t)]. *)
Definition arange (t : nat) : JTensor Z :=
  mkTensor [t] (λ idx, Z.of_nat (ix idx 0)).

(** [jnp.tile(x, reps)] for [reps] of the rank of [x]. *)
Definition tile {A} (reps : list nat) (x : JTensor A) : JTensor A :=
  mkTensor (zip_with Nat.mul (shape x) reps)
           (λ idx, data x (zip_with Nat.modulo idx (shape x))).

(** [x[:, i]] style integer indexing of one axis. *)
Definition take_axis {A} (axis i : nat) (x : JTensor A) : JTensor A :=
  mkTensor (delete axis (shape x))
           (λ idx, data x (take axis idx ++ i :: drop axis idx)).

End Tensor.

Import Tensor.

(** ** Element types and [py_utils] *)

Inductive DType : Type := float32 | bfloat16 | float64 | int32 | int64.

Definition is_float32 (d : DType) : bool :=
  match d with float32 => true | _ => false end.
Definition is_bfloat16 (d : DType) : bool :=
  match d with bfloat16 => true | _ => false end.

(** [py_utils.get_large_negative_number]: the module [py_utils] is used by the
    attention code but is not part of the verified sources, so the constant
    is an interface of the development. *)
Class PyUtils : Type := {
  get_large_negative_number : DType → R
}.

(** What the mask code relies on: the constant is negative. *)
Class PyUtilsSpec `{PyUtils} : Prop := {
  large_negative_lt0 : ∀ d, (get_large_negative_number d < 0)%R
}.

(** Modelled from the spec: [get_large_negative_number] of the absent
    [py_utils] module, "a large negative constant", "finite and
    dtype-appropriate": [-0.7] times the largest finite value of the type. *)
Definition dtype_max (d : DType) : R :=
  match d with
  | float32 => (2 - / 2 ^ 23) * 2 ^ 127
  | bfloat16 => (2 - / 2 ^ 7) * 2 ^ 127
  | float64 => (2 - / 2 ^ 52) * 2 ^ 1023
  | int32 => 2 ^ 31 - 1
  | int64 => 2 ^ 63 - 1
  end%R.

Definition praxis_py_utils : PyUtils :=
  {| get_large_negative_number d := (- (7 / 10) * dtype_max d)%R |}.

Definition bool_to_R (b : bool) : R := if b then 1%R else 0%R.

(** ** Mask builders *)

Module Masks.
Section masks.
Context `{PyUtils}.

(** [convert_paddings_to_mask(paddings, dtype)]: paddings [B, T] to a mask
    [B, 1, 1, T]. *)
Definition convert_paddings_to_mask (paddings : JTensor R) (dtype : DType)
  : JTensor R :=
  let attention_mask := expand_dims 1 (expand_dims 1 paddings) in
  tmap (λ x, x * get_large_negative_number dtype)%R attention_mask.

(** [causal_mask(input_t)]: only the element type and the length [T] of
    [input_t : [B, T, D]] are read. *)
Definition causal_mask (input_dtype : DType) (input_t : JTensor R)
  : result (JTensor R) :=
  assert! (is_float32 input_dtype || is_bfloat16 input_dtype) ;;
  let large_negative_number := get_large_negative_number input_dtype in
  let t := ix (shape input_t) 1 in
  let col_idx := tile [t; 1] (expand_dims 0 (arange t)) in
  let row_idx := tile [1; t] (expand_dims 1 (arange t)) in
  let mask :=
    tmap (λ x, x * large_negative_number)%R
         (tmap2 (λ r c, bool_to_R (r <? c)%Z) row_idx col_idx) in
  ret (expand_dims 0 (expand_dims 0 mask)).

(** [segment_mask(segment_ids, source_segment_ids, dtype)]. *)
Definition segment_mask (segment_ids : JTensor Z)
    (source_segment_ids : option (JTensor Z)) (dtype : DType) : JTensor R :=
  let segment_ids_1 := expand_dims (ndim segment_ids) segment_ids in
  let segment_ids_2 :=
    match source_segment_ids with
    | Some src => expand_dims 1 src
    | None => expand_dims 1 segment_ids
    end in
  let mask :=
    tmap2 (λ a b, bool_to_R (negb (a =? b)%Z)) segment_ids_1 segment_ids_2 in
  let mask := expand_dims 1 mask in
  tmap (λ x, x * get_large_negative_number dtype)%R mask.

(** [causal_segment_mask(segment_ids, dtype, causal_attention_mask)]. *)
Definition causal_segment_mask (segment_ids : JTensor Z) (dtype : DType)
    (causal_attention_mask : option (JTensor R)) : result (JTensor R) :=
  let segment_mask_t := segment_mask segment_ids None dtype in
  match shape segment_ids with
  | [b; t] =>
      causal_mask_t <-- causal_mask dtype (zeros [b; t; 1]) ;;
      let causal_mask_t :=
        match causal_attention_mask with
        | Some cam =>
            tmap2 Rmult causal_mask_t (expand_dims 1 (expand_dims 1 cam))
        | None => causal_mask_t
        end in
      ret (tmap2 Rmin segment_mask_t causal_mask_t)
  | _ => raise ValueError
  end.

(** [limited_context_mask_from_padding(paddings, left_context,
    right_context, dtype)]; [None] is an unlimited context. *)
Definition limited_context_mask_from_padding (paddings : JTensor R)
    (left_context right_context : option Z) (dtype : DType) : JTensor R :=
  let padding_mask := convert_paddings_to_mask paddings float32 in
  let rev_padding_mask := transpose [0; 1; 3; 2] padding_mask in
  let large_negative_number := get_large_negative_number dtype in
  let t := ix (shape paddings) 1 in
  let right_context := default (Z.of_nat t) right_context in
  let left_context := default (Z.of_nat t) left_context in
  let col_idx := tile [t; 1] (expand_dims 0 (arange t)) in
  let row_idx := tile [1; t] (expand_dims 1 (arange t)) in
  let mask :=
    tmap (λ x, x * large_negative_number)%R
      (tmap2 (λ c r, bool_to_R ((c + left_context <=? r)%Z
                                || (r <? c - right_context)%Z))
             col_idx row_idx) in
  tmap2 Rmin (tmap2 Rmin mask padding_mask) rev_padding_mask.

End masks.
End Masks.

(** ** The spec's reading of the combined causal-segment mask *)

Module MaskSpec.
Section mask_spec.
Context `{PyUtils}.

(** The mask "computed by directly disallowing (different segment) OR
    (j > i)": the large negative constant on those pairs, 0 elsewhere. *)
Definition direct_causal_segment_mask (b t : nat) (segment_ids : JTensor Z)
    (dtype : DType) : JTensor R :=
  mkTensor [b; 1; t; t] (λ idx,
    let bi := ix idx 0 in
    let i := ix idx 2 in
    let j := ix idx 3 in
    if negb (data segment_ids [bi; i] =? data segment_ids [bi; j])%Z
       || (i <? j)
    then get_large_negative_number dtype else 0%R).

End mask_spec.

(** The window test of [limited_context_mask_from_padding] at query [i] and
    key [j]. *)
Definition window_forbidden (t : nat) (left_context right_context : option Z)
    (i j : nat) : bool :=
  (Z.of_nat j + default (Z.of_nat t) left_context <=? Z.of_nat i)%Z
  || (Z.of_nat i <? Z.of_nat j - default (Z.of_nat t) right_context)%Z.

End MaskSpec.

(** ** Reductions along the last axis *)

Module Reduce.

(** Sum of [f 0 .. f (n-1)]. *)
Fixpoint rsum (n : nat) (f : nat → R) : R :=
  match n with
  | 0 => 0
  | S m => rsum m f + f m
  end%R.

(** Maximum of [f 0 .. f (n-1)], for [n >= 1]. *)
Fixpoint rmax (n : nat) (f : nat → R) : R :=
  match n with
  | 0 => 0%R
  | S m => match m with
           | 0 => f 0
           | S _ => Rmax (rmax m f) (f m)
           end
  end.

Definition last_dim (sh : list nat) : nat := List.last sh 0.

(** The entries that share all but the last coordinate with [idx]. *)
Definition row {A} (x : JTensor A) (idx : list nat) (j : nat) : A :=
  data x (removelast idx ++ [j]).

(** [jax.nn.softmax(x, axis=-1)]: exponentials of the entries minus the
    row maximum, divided by their sum. *)
Definition softmax (x : JTensor R) : JTensor R :=
  mkTensor (shape x) (λ idx,
    let s := last_dim (shape x) in
    let m := rmax s (row x idx) in
    exp (data x idx - m) / rsum s (λ j, exp (row x idx j - m)))%R.

End Reduce.

Import Reduce.

(** ** Further tensor operations *)

Module TensorOps.

Definition prod_list (sh : list nat) : nat := foldr Nat.mul 1 sh.

(** Row-major position of [idx] in a tensor of shape [sh], and back. *)
Fixpoint ravel (sh idx : list nat) : nat :=
  match sh, idx with
  | _ :: sh', i :: idx' => i * prod_list sh' + ravel sh' idx'
  | _, _ => 0
  end.

Fixpoint unravel (sh : list nat) (k : nat) : list nat :=
  match sh with
  | [] => []
  | _ :: sh' => k / prod_list sh' :: unravel sh' (k `mod` prod_list sh')
  end.

(** [jnp.reshape(x, new_shape)]. *)
Definition reshape {A} (new_shape : list nat) (x : JTensor A) : JTensor A :=
  mkTensor new_shape (λ idx, data x (unravel (shape x) (ravel new_shape idx))).

(** [jax.lax.slice_in_dim(x, start, limit, axis)]. *)
Definition slice_in_dim {A} (x : JTensor A) (start limit axis : nat)
  : JTensor A :=
  mkTensor (<[axis := limit - start]> (shape x))
           (λ idx, data x (<[axis := ix idx axis + start]> idx)).

(** [jnp.pad(x, ...)] with [lo] and [hi] entries of value [v] added before
    and after along [axis]. *)
Definition pad_axis {A} (axis lo hi : nat) (v : A) (x : JTensor A)
  : JTensor A :=
  mkTensor (<[axis := lo + ix (shape x) axis + hi]> (shape x))
           (λ idx, let i := ix idx axis in
                   if (lo <=? i) && (i <? lo + ix (shape x) axis)
                   then data x (<[axis := i - lo]> idx) else v).

(** [jnp.concatenate([x, y], axis)]. *)
Definition concatenate2 {A} (axis : nat) (x y : JTensor A) : JTensor A :=
  mkTensor (<[axis := ix (shape x) axis + ix (shape y) axis]> (shape x))
           (λ idx, let i := ix idx axis in
                   if i <? ix (shape x) axis then data x idx
                   else data y (<[axis := i - ix (shape x) axis]> idx)).

(** [jnp.concatenate(chunks, axis)] for a non-empty list. *)
Fixpoint concatenate {A} (axis : nat) (x : JTensor A)
    (rest : list (JTensor A)) : JTensor A :=
  match rest with
  | [] => x
  | y :: rest' => concatenate axis (concatenate2 axis x y) rest'
  end.

(** Start index of [jax.lax.dynamic_slice] and [dynamic_update_slice]
    along one axis: a negative index counts from the end, and the window
    of [size] entries is moved back into the operand of [dim] entries. *)
Definition clamp_start (dim size : nat) (i : Z) : nat :=
  let i := if (i <? 0)%Z then (i + Z.of_nat dim)%Z else i in
  Z.to_nat (Z.max 0 (Z.min i (Z.of_nat dim - Z.of_nat size))).

(** [jax.lax.dynamic_update_slice(operand, update, start_indices)]. *)
Definition dynamic_update_slice {A} (operand update : JTensor A)
    (start_indices : list Z) : JTensor A :=
  let starts :=
    zip_with (λ ds i, clamp_start ds.1 ds.2 i)
             (zip (shape operand) (shape update)) start_indices in
  mkTensor (shape operand) (λ idx,
    if forallb (λ '(i, s, u), (s <=? i) && (i <? s + u))
               (zip (zip idx starts) (shape update))
    then data update (zip_with Nat.sub idx starts)
    else data operand idx).

(** [jax.lax.dynamic_slice_in_dim(x, start_index, slice_size, axis)]. *)
Definition dynamic_slice_in_dim {A} (x : JTensor A) (start_index : Z)
    (slice_size axis : nat) : JTensor A :=
  let start := clamp_start (ix (shape x) axis) slice_size start_index in
  mkTensor (<[axis := slice_size]> (shape x))
           (λ idx, data x (<[axis := ix idx axis + start]> idx)).

(** [jnp.broadcast_to(x, sh)]. *)
Definition broadcast_to {A} (sh : list nat) (x : JTensor A) : JTensor A :=
  mkTensor sh (λ idx, data x (bc_index (shape x) idx)).

(** [nn.vmap] on the output side: the results [f j], [j < size], stacked
    along the new axis [axis].  The mapped function is traced once, so its
    failure is the failure of the whole map. *)
Definition vmap_out {A} (axis size : nat) (f : nat → result (JTensor A))
  : result (JTensor A) :=
  x0 <-- f 0 ;;
  ret (mkTensor (take axis (shape x0) ++ size :: drop axis (shape x0))
                (λ idx, match f (ix idx axis) with
                        | inr x => data x (delete axis idx)
                        | inl _ => data x0 (delete axis idx)
                        end)).

End TensorOps.

Import TensorOps.

(** ** Sub-layers of the attention layer *)

Module Layers.

(** *** [PerDimScale] *)

Record PerDimScale : Type := {
  pds_dim : nat;
  pds_theta : JTensor R  (* theta.per_dim_scale, [dim] *)
}.

(** [jax.nn.softplus]. *)
Definition softplus (x : R) : R := ln (1 + exp x).

Definition r_softplus_0 : R := 1442695041 / 1000000000.

Definition PerDimScale_call (self : PerDimScale) (inputs : JTensor R)
  : result (JTensor R) :=
  assert! (last_dim (shape inputs) =? pds_dim self) ;;
  let scale :=
    tmap (λ th, r_softplus_0 / sqrt (INR (pds_dim self)) * softplus th)%R
         (pds_theta self) in
  ret (tmap2 Rmult inputs scale).

(** *** [AttentionProjection] *)

Record AttentionProjection : Type := {
  ap_input_dim : nat;
  ap_num_heads : nat;
  ap_dim_per_head : nat;
  is_output_projection : bool;
  ap_use_bias : bool;
  ap_attention_combine_dims : bool;
  use_nhd_shape : bool;
  ap_w : JTensor R;  (* theta.w *)
  ap_b : JTensor R   (* theta.b *)
}.

(** ['...D,DNH->...NH']. *)
Definition einsum_D_DNH (inputs w : JTensor R) : JTensor R :=
  let d := last_dim (shape inputs) in
  mkTensor (removelast (shape inputs) ++ [ix (shape w) 1; ix (shape w) 2])
    (λ idx,
       let r := length idx in
       let pre := take (r - 2) idx in
       rsum d (λ k, data inputs (pre ++ [k])
                    * data w [k; ix idx (r - 2); ix idx (r - 1)])%R).

(** ['...NH,DNH->...D'] ([nhd = false]) and ['...NH,NHD->...D']. *)
Definition einsum_NH_DNH (nhd : bool) (inputs w : JTensor R) : JTensor R :=
  let r := length (shape inputs) in
  let n := ix (shape inputs) (r - 2) in
  let h := ix (shape inputs) (r - 1) in
  mkTensor (take (r - 2) (shape inputs)
            ++ [if nhd then ix (shape w) 2 else ix (shape w) 0])
    (λ idx,
       let pre := removelast idx in
       let d := List.last idx 0 in
       rsum n (λ i, rsum h (λ j,
         data inputs (pre ++ [i; j])
         * data w (if nhd then [i; j; d] else [d; i; j])))%R).

Definition AttentionProjection_call (self : AttentionProjection)
    (inputs : JTensor R) : result (JTensor R) :=
  let sh := shape inputs in
  let rank := length sh in
  let w :=
    if ap_attention_combine_dims self then
      reshape (if is_output_projection self && use_nhd_shape self
               then [ap_num_heads self; ap_dim_per_head self;
                     ap_input_dim self]
               else [ap_input_dim self; ap_num_heads self;
                     ap_dim_per_head self])
              (ap_w self)
    else ap_w self in
  ret0 <--
    (if is_output_projection self then
       assert! (bool_decide (drop (rank - 2) sh
                             = [ap_num_heads self; ap_dim_per_head self])) ;;
       ret (einsum_NH_DNH (use_nhd_shape self) inputs w)
     else
       assert! (last_dim sh =? ap_input_dim self) ;;
       ret (einsum_D_DNH inputs w)) ;;
  ret (if ap_use_bias self then tmap2 Rplus ret0 (ap_b self) else ret0).

(** *** [CombinedQKVProjectionLayer] *)

Record CombinedQKVProjectionLayer : Type := {
  cq_input_dim : nat;
  cq_num_heads : nat;
  cq_dim_per_head : nat;
  cq_use_bias : bool;
  cq_attention_combine_dims : bool;
  cq_w : JTensor R;  (* theta.w, [3, D, N, H] *)
  cq_b : JTensor R   (* theta.b, [3, N, H] *)
}.

(** ['...D,KDNH->K...NH']. *)
Definition einsum_D_KDNH (inputs w : JTensor R) : JTensor R :=
  let d := last_dim (shape inputs) in
  mkTensor (ix (shape w) 0
            :: removelast (shape inputs) ++ [ix (shape w) 2; ix (shape w) 3])
    (λ idx,
       let r := length idx in
       let pre := take (r - 3) (drop 1 idx) in
       rsum d (λ k, data inputs (pre ++ [k])
                    * data w [ix idx 0; k; ix idx (r - 2); ix idx (r - 1)])%R).

(** The three projections, in q, k, v order. *)
Definition CombinedQKVProjectionLayer_call
    (self : CombinedQKVProjectionLayer) (inputs : JTensor R)
  : result (JTensor R * JTensor R * JTensor R) :=
  let sh := shape inputs in
  let rank := length sh in
  assert! (0 <? rank) ;;
  assert! (last_dim sh =? cq_input_dim self) ;;
  let batch_dims_rank := rank - 1 in
  let w :=
    if cq_attention_combine_dims self then
      reshape [3; cq_input_dim self; cq_num_heads self;
               cq_dim_per_head self] (cq_w self)
    else cq_w self in
  let b :=
    if cq_attention_combine_dims self then
      reshape [3; cq_num_heads self; cq_dim_per_head self] (cq_b self)
    else cq_b self in
  let ret0 := einsum_D_KDNH inputs w in
  let ret0 :=
    if cq_use_bias self then
      tmap2 Rplus ret0
            (foldr (λ _ acc, expand_dims 1 acc) b (seq 0 batch_dims_rank))
    else ret0 in
  ret (take_axis 0 0 ret0, take_axis 0 1 ret0, take_axis 0 2 ret0).

(** *** [shift_1d] and [CausalDepthwiseConv1D] *)

Definition shift_1d (inputs : JTensor R) (offset : Z) (axis : nat)
  : JTensor R :=
  let input_length := ix (shape inputs) axis in
  let padded_inputs :=
    pad_axis axis (Z.to_nat (Z.max offset 0)) (Z.to_nat (- Z.min offset 0))
             0%R inputs in
  if (0 <? offset)%Z then slice_in_dim padded_inputs 0 input_length axis
  else slice_in_dim padded_inputs (Z.to_nat (- offset))
                    (input_length + Z.to_nat (- offset)) axis.

Record CausalDepthwiseConv1D : Type := {
  kernel_size : nat;
  dconv : nat → JTensor R  (* theta.dconv_i, each of shape hidden_dims *)
}.

(** [segment_pos >= i], with trailing unit axes added up to rank [r]. *)
Definition segment_pos_mask (segment_pos : JTensor Z) (i r : nat)
  : JTensor R :=
  let mask := tmap (λ pos, bool_to_R (Z.of_nat i <=? pos)%Z) segment_pos in
  foldr (λ _ m, expand_dims (ndim m) m) mask
        (seq 0 (r - ndim segment_pos)).

Definition CausalDepthwiseConv1D_call (self : CausalDepthwiseConv1D)
    (inputs : JTensor R) (axis : nat) (segment_pos : option (JTensor Z))
  : JTensor R :=
  let outputs := tmap2 Rmult inputs (dconv self 0) in
  snd (foldl (λ '(inputs, outputs) i,
                let inputs := shift_1d inputs 1 axis in
                let term := tmap2 Rmult inputs (dconv self i) in
                let term :=
                  match segment_pos with
                  | None => term
                  | Some pos =>
                      tmap2 Rmult term
                            (segment_pos_mask pos i (ndim inputs))
                  end in
                (inputs, tmap2 Rplus outputs term))
             (inputs, outputs)
             (seq 1 (kernel_size self - 1))).

(** [extend_step] with a traced [step] (the attention layers always pass a
    tensor, so previous slices are selected with [jnp.where]). *)
Definition CausalDepthwiseConv1D_extend_step (self : CausalDepthwiseConv1D)
    (inputs : JTensor R) (axis : nat) (step : Z)
    (segment_pos : option (JTensor Z)) : JTensor R :=
  let get_single_slice_at_index start_index :=
    dynamic_slice_in_dim inputs start_index 1 axis in
  let outputs := tmap2 Rmult (get_single_slice_at_index step) (dconv self 0) in
  let segment_pos : JTensor Z :=
    match segment_pos with
    | None => mkTensor [] (λ _, step)
    | Some pos =>
        reshape (ix (shape pos) 0 :: replicate (ndim inputs - 1) 1) pos
    end in
  let outputs :=
    foldl (λ outputs i,
             let prev_slice :=
               tmap2 (λ c xy, if c : bool then xy.1 else xy.2)
                     (tmap (λ pos, (0 <=? pos - Z.of_nat i)%Z) segment_pos)
                     (tmap2 pair
                            (get_single_slice_at_index (step - Z.of_nat i)%Z)
                            (tmap (λ _, 0%R) outputs)) in
             tmap2 Rplus outputs (tmap2 Rmult prev_slice (dconv self i)))
          outputs (seq 1 (kernel_size self - 1)) in
  squeeze axis outputs.

(** *** [RelativeBias] *)

Record RelativeBias : Type := {
  rb_num_heads : nat;
  use_length_as_position : bool;
  relative_attention_num_buckets : nat;
  relative_attention_max_distance : nat;
  bidirectional : bool;
  wrb : JTensor R  (* theta.wrb, [num_heads, num_buckets] *)
}.

(** A float cast to [int32] drops the fractional part. *)
Definition trunc (r : R) : Z :=
  if Rle_dec 0 r then Int_part r else (- Int_part (- r))%Z.

Definition _relative_position_bucket (self : RelativeBias)
    (relative_position : Z) : Z :=
  let num_buckets := Z.of_nat (relative_attention_num_buckets self) in
  let max_distance := INR (relative_attention_max_distance self) in
  let n := (- relative_position)%Z in
  let '(num_buckets, ret0, n) :=
    if bidirectional self then
      let num_buckets := (num_buckets / 2)%Z in
      (num_buckets, (if (n <? 0)%Z then num_buckets else 0)%Z, Z.abs n)
    else (num_buckets, 0%Z, Z.max n 0) in
  let max_exact := (num_buckets / 2)%Z in
  let is_small := (n <? max_exact)%Z in
  let val_if_large :=
    (max_exact
     + trunc (ln (IZR n / IZR max_exact)
              / ln (max_distance / IZR max_exact)
              * IZR (num_buckets - max_exact)))%Z in
  let val_if_large := Z.min val_if_large (num_buckets - 1) in
  (ret0 + if is_small then n else val_if_large)%Z.

(** [query_segment_pos : [B, T]], [key_segment_pos : [B, S]]; the result
    is [B, N, T, S] ([B = 1] under [use_length_as_position]). *)
Definition RelativeBias_call (self : RelativeBias)
    (query_segment_pos : option (JTensor Z))
    (key_segment_pos : option (JTensor Z)) : result (JTensor R) :=
  match query_segment_pos with
  | None => raise AssertionError
  | Some query_segment_pos =>
      let key_segment_pos := default query_segment_pos key_segment_pos in
      let relative_position :=
        if use_length_as_position self then
          let klen := ix (shape key_segment_pos) 1 in
          let qlen := ix (shape query_segment_pos) 1 in
          tmap2 Z.sub (expand_dims 0 (expand_dims 0 (arange klen)))
                      (expand_dims 2 (expand_dims 0 (arange qlen)))
        else
          tmap2 Z.sub (expand_dims 1 key_segment_pos)
                      (expand_dims 2 query_segment_pos) in
      let relative_bucket :=
        tmap (_relative_position_bucket self) relative_position in
      let x := relative_attention_num_buckets self in
      (* one_hot followed by einsum('NX,BTSX->BNTS') *)
      ret (mkTensor [ix (shape relative_bucket) 0; ix (shape (wrb self)) 0;
                     ix (shape relative_bucket) 1;
                     ix (shape relative_bucket) 2]
             (λ idx,
                let bucket :=
                  data relative_bucket [ix idx 0; ix idx 2; ix idx 3] in
                rsum x (λ k, data (wrb self) [ix idx 1; k]
                             * bool_to_R (Z.of_nat k =? bucket)%Z)%R))
  end.

Definition RelativeBias_extend_step (self : RelativeBias)
    (seq_length : nat) (time_step : Z) : result (JTensor R) :=
  let query_segment_pos := mkTensor [1] (λ _, (0 + time_step)%Z) in
  let key_segment_pos := arange seq_length in
  RelativeBias_call self (Some (expand_dims 0 query_segment_pos))
                    (Some (expand_dims 0 key_segment_pos)).

(** *** Sub-layers whose sources are outside the verified files

    [embedding_softmax.RotaryPositionalEmbedding], the n-grammer layer and
    [stochastics.Dropout] are taken as given functions. *)

Record RotaryPositionalEmbedding : Type := {
  rotary_call : JTensor R → option (JTensor Z) → JTensor R;
  rotary_extend_step : JTensor R → JTensor Z → JTensor R
}.

Record Ngrammer : Type := {
  ngram_using_attention_scores : bool;
  (* input_embs, segment_pos, attention_scores *)
  ngrammer_call :
    JTensor R → option (JTensor Z) → option (JTensor R) → JTensor R;
  (* cached encodings, step, attention_score *)
  ngrammer_extend_step :
    JTensor R → Z → option (JTensor R) → JTensor R
}.

End Layers.

Import Layers.

(** ** Variable collections of a layer instance *)

Module Flax.

(** Modelled from the spec: the state accessors of the absent [base_layer]
    module ([get_decode_state], [update_decode_state], [get_variable],
    [put_variable], [is_mutable_collection]).  "DecodeCache: mutable
    mapping from state name to a tensor"; a prefix chunk is "a frozen copy
    of a DecodeCache entry".  The prefix collection may be absent. *)
Record Variables : Type := {
  DECODE_CACHE : gmap string (JTensor R);
  PREFIX_DECODE_CACHE : option (gmap string (JTensor R))
}.

(** Which collections the running [apply] may write. *)
Record Mutable : Type := {
  mutable_DECODE_CACHE : bool;
  mutable_PREFIX_DECODE_CACHE : bool
}.

(** Computations that read and write the collections and may raise. *)
Definition M (A : Type) : Type := Variables → result (A * Variables).

Definition mret {A} (a : A) : M A := λ v, inr (a, v).
Definition mbind {A B} (m : M A) (k : A → M B) : M B :=
  λ v, match m v with
       | inl e => inl e
       | inr (a, v') => k a v'
       end.
Definition lift {A} (r : result A) : M A :=
  λ v, match r with inl e => inl e | inr a => inr (a, v) end.
Definition mraise {A} (e : exn) : M A := λ _, inl e.

Definition get_decode_state (name : string) : M (option (JTensor R)) :=
  λ v, inr (DECODE_CACHE v !! name, v).

Definition update_decode_state (name : string) (value : JTensor R)
  : M unit :=
  λ v, inr (tt, {| DECODE_CACHE := <[name := value]> (DECODE_CACHE v);
                   PREFIX_DECODE_CACHE := PREFIX_DECODE_CACHE v |}).

Definition get_prefix_variable (name : string) : M (JTensor R) :=
  λ v, match PREFIX_DECODE_CACHE v ≫= (λ m, m !! name) with
       | Some x => inr (x, v)
       | None => inl ValueError
       end.

Definition put_prefix_variable (name : string) (value : JTensor R)
  : M unit :=
  λ v, inr (tt, {| DECODE_CACHE := DECODE_CACHE v;
                   PREFIX_DECODE_CACHE :=
                     Some (<[name := value]>
                             (default ∅ (PREFIX_DECODE_CACHE v))) |}).

End Flax.

Import Flax.

Notation "x <- m ; k" := (mbind m (λ x, k))
  (at level 100, m at next level, right associativity).
Notation "m ;;; k" := (mbind m (λ _, k))
  (at level 100, right associativity).

(** ** [DotProductAttention] *)

Module Attention.

Record HParams : Type := {
  input_dim : nat;
  hidden_dim : nat;
  num_heads : nat;
  dim_per_head : nat;
  dconv_qkv : bool;
  combine_qkv : bool;
  internal_enable_query_scale : bool;
  internal_enable_per_dim_scale : bool;
  atten_logit_cap : R;
  use_rotary_position_emb : bool;
  attention_extra_logit : option R;
  decode_cache : bool
}.

(** A layer instance: hyper-parameters and children.  [relative_bias] and
    [ngrammer] exist exactly when [relative_bias_tpl] and [ngrammer_tpl]
    are set. *)
Record DotProductAttention : Type := {
  hparams : HParams;
  query : AttentionProjection;
  key : AttentionProjection;
  value : AttentionProjection;
  combined_qkv : CombinedQKVProjectionLayer;
  post : AttentionProjection;
  per_dim_scale : PerDimScale;
  atten_dropout : JTensor R → JTensor R;
  dconv_q : CausalDepthwiseConv1D;
  dconv_k : CausalDepthwiseConv1D;
  dconv_v : CausalDepthwiseConv1D;
  rotary_position_emb : RotaryPositionalEmbedding;
  relative_bias : option RelativeBias;
  ngrammer : option Ngrammer
}.

(** [base_layer.assert_has_shape(x, spec)], [-1] ([None] here) matching
    any size. *)
Definition has_shape {A} (x : JTensor A) (spec : list (option nat)) : bool :=
  (length (shape x) =? length spec)
  && forallb (λ '(d, s), match s with Some n => d =? n | None => true end)
             (zip (shape x) spec).

Definition assert_has_shape {A} (x : JTensor A) (spec : list (option nat))
  : result unit :=
  if has_shape x spec then ret tt else raise AssertionError.

Definition is_in (d : nat) (l : list nat) : bool :=
  existsb (Nat.eqb d) l.

Section methods.
Variable self : DotProductAttention.
Let p := hparams self.

(** [_scale_query] *)
Definition _scale_query (query : JTensor R) : result (JTensor R) :=
  if internal_enable_query_scale p then
    if internal_enable_per_dim_scale p then
      PerDimScale_call (per_dim_scale self) query
    else
      ret (tmap (λ x, x * / sqrt (INR (hidden_dim p / num_heads p)))%R
                query)
  else ret query.

(** [_cap_logits] *)
Definition _cap_logits (logits : JTensor R) : JTensor R :=
  if Req_EM_T (atten_logit_cap p) 0 then logits
  else if Rle_dec (atten_logit_cap p) 0 then logits
  else
    let cap := atten_logit_cap p in
    tmap (λ x, cap * tanh (x / cap))%R logits.

(** [_log_softmax_with_extra_logit] *)
Definition _log_softmax_with_extra_logit (logits : JTensor R)
  : JTensor R :=
  mkTensor (shape logits) (λ idx,
    let s := last_dim (shape logits) in
    let max_logit := rmax s (row logits idx) in
    let extra_logit := attention_extra_logit p in
    let max_logit :=
      match extra_logit with
      | Some e => Rmax max_logit e
      | None => max_logit
      end in
    let sum_exp_x := rsum s (λ j, exp (row logits idx j - max_logit)) in
    let sum_exp_x :=
      match extra_logit with
      | Some e => sum_exp_x + exp (e - max_logit)
      | None => sum_exp_x
      end in
    data logits idx - ln sum_exp_x - max_logit)%R.

(** The softmax step shared by all attention paths. *)
Definition attention_probs (padded_logits : JTensor R) : JTensor R :=
  match attention_extra_logit p with
  | None => softmax padded_logits
  | Some _ => tmap exp (_log_softmax_with_extra_logit padded_logits)
  end.

(** [_atten_logits]: ['BTNH,BSNH->BNTS']. *)
Definition _atten_logits (query key : JTensor R) : JTensor R :=
  mkTensor [ix (shape query) 0; ix (shape query) 2;
            ix (shape query) 1; ix (shape key) 1]
    (λ idx,
       let '(b, n, t, s) := (ix idx 0, ix idx 1, ix idx 2, ix idx 3) in
       rsum (ix (shape query) 3)
            (λ h, data query [b; t; n; h] * data key [b; s; n; h])%R).

(** ['BNTS,BSNH->BTNH']. *)
Definition einsum_BNTS_BSNH (probs value : JTensor R) : JTensor R :=
  mkTensor [ix (shape probs) 0; ix (shape probs) 2;
            ix (shape probs) 1; ix (shape value) 3]
    (λ idx,
       let '(b, t, n, h) := (ix idx 0, ix idx 1, ix idx 2, ix idx 3) in
       rsum (ix (shape probs) 3)
            (λ s, data probs [b; n; t; s] * data value [b; s; n; h])%R).

(** The logits of [_dot_atten] after the mask is added (the local
    variable [padded_logits]). *)
Definition _dot_atten_padded_logits (query key value atten_mask : JTensor R)
    (relative_bias : option (JTensor R)) : result (JTensor R) :=
  match shape key with
  | [b; s; n; h] =>
      _ <-- assert_has_shape value [Some b; Some s; Some n; Some h] ;;
      _ <-- assert_has_shape query [Some b; None; Some n; Some h] ;;
      let t := ix (shape query) 1 in
      _ <-- assert_has_shape atten_mask [None; Some 1; None; Some s] ;;
      assert! (is_in (ix (shape atten_mask) 2) [1; t]) ;;
      assert! (is_in (ix (shape atten_mask) 0) [1; b]) ;;
      query <-- _scale_query query ;;
      let logits := _atten_logits query key in
      logits <--
        match relative_bias with
        | Some rb =>
            _ <-- assert_has_shape rb [None; Some n; Some t; Some s] ;;
            ret (tmap2 Rplus logits rb)
        | None => ret logits
        end ;;
      let logits := _cap_logits logits in
      ret (tmap2 Rplus logits atten_mask)
  | _ => raise ValueError
  end.

(** [_dot_atten] of [DotProductAttention]: the encoded tensor
    [B, T, N, H] and the probabilities [B, N, T, S]. *)
Definition _dot_atten (query key value atten_mask : JTensor R)
    (relative_bias : option (JTensor R))
  : result (JTensor R * JTensor R) :=
  padded_logits <--
    _dot_atten_padded_logits query key value atten_mask relative_bias ;;
  let probs := attention_probs padded_logits in
  let probs := atten_dropout self probs in
  let encoded := einsum_BNTS_BSNH probs value in
  ret (encoded, probs).

(** ['BNH,BSNH->BNS'] and ['BNS,BSNH->BNH']. *)
Definition einsum_BNH_BSNH (query key : JTensor R) : JTensor R :=
  mkTensor [ix (shape query) 0; ix (shape query) 1; ix (shape key) 1]
    (λ idx,
       let '(b, n, s) := (ix idx 0, ix idx 1, ix idx 2) in
       rsum (ix (shape query) 2)
            (λ h, data query [b; n; h] * data key [b; s; n; h])%R).

Definition einsum_BNS_BSNH (probs value : JTensor R) : JTensor R :=
  mkTensor [ix (shape probs) 0; ix (shape probs) 1; ix (shape value) 3]
    (λ idx,
       let '(b, n, h) := (ix idx 0, ix idx 1, ix idx 2) in
       rsum (ix (shape probs) 2)
            (λ s, data probs [b; n; s] * data value [b; s; n; h])%R).

(** The masked logits of one decoding step, on a key tensor
    [B, S, N, H], a query [B, N, H] and a mask [1/B, 1, S]. *)
Definition one_step_padded_logits (query key atten_mask : JTensor R)
    (relative_bias : option (JTensor R)) : result (JTensor R) :=
  match shape key with
  | [b; s; n; h] =>
      _ <-- assert_has_shape query [Some b; Some n; Some h] ;;
      _ <-- assert_has_shape atten_mask [None; Some 1; Some s] ;;
      assert! (is_in (ix (shape atten_mask) 0) [1; b]) ;;
      query <-- _scale_query query ;;
      let logits := einsum_BNH_BSNH query key in
      logits <--
        match relative_bias with
        | Some rb =>
            _ <-- assert_has_shape rb [None; Some n; Some 1; Some s] ;;
            assert! (is_in (ix (shape rb) 0) [1; b]) ;;
            let rb := squeeze 2 rb in
            ret (tmap2 Rplus logits rb)
        | None => ret logits
        end ;;
      let logits := _cap_logits logits in
      ret (tmap2 Rplus logits atten_mask)
  | _ => raise ValueError
  end.

(** [_dot_atten_one_step] of [DotProductAttention]. *)
Definition _dot_atten_one_step (query : JTensor R)
    (key_state_name value_state_name : string) (atten_mask : JTensor R)
    (relative_bias : option (JTensor R)) : M (JTensor R * JTensor R) :=
  key <- get_decode_state key_state_name ;
  value <- get_decode_state value_state_name ;
  match key, value with
  | Some key, Some value =>
      match shape key with
      | [b; s; n; h] =>
          _ <- lift (assert_has_shape value
                       [Some b; Some s; Some n; Some h]) ;
          padded_logits <-
            lift (one_step_padded_logits query key atten_mask
                                         relative_bias) ;
          let probs := attention_probs padded_logits in
          let encoded := einsum_BNS_BSNH probs value in
          mret (encoded, probs)
      | _ => mraise ValueError
      end
  | _, _ => mraise AssertionError
  end.

End methods.

(** The arguments [query_vec], [key_vec], [value_vec] of [__call__]:
    one object passed three times (self attention), or three tensors. *)
Inductive AttentionInputs : Type :=
  | SelfAttention (x : JTensor R)
  | CrossAttention (query_vec key_vec value_vec : JTensor R).

Definition query_vec_of (i : AttentionInputs) : JTensor R :=
  match i with SelfAttention x => x | CrossAttention q _ _ => q end.
Definition key_vec_of (i : AttentionInputs) : JTensor R :=
  match i with SelfAttention x => x | CrossAttention _ k _ => k end.
Definition value_vec_of (i : AttentionInputs) : JTensor R :=
  match i with SelfAttention x => x | CrossAttention _ _ v => v end.

Section stateful.
Variable self : DotProductAttention.
Variable mut : Mutable.
Let p := hparams self.

(** [_fprop_update_decode_state] *)
Definition _fprop_update_decode_state (name : string) (value : JTensor R)
  : M unit :=
  if negb (mutable_DECODE_CACHE mut) || negb (decode_cache p)
  then mret tt
  else update_decode_state name value.

(** [extend_decode_state] *)
Definition extend_decode_state (name : string) (value : JTensor R)
    (time_step : Z) (time_dim : nat) : M (JTensor R) :=
  let extend_value := expand_dims time_dim value in
  let indices := <[time_dim := time_step]> (replicate (ndim extend_value) 0%Z) in
  state <- get_decode_state name ;
  match state with
  | None => mraise AssertionError
  | Some state =>
      let new_state := dynamic_update_slice state extend_value indices in
      update_decode_state name new_state ;;;
      mret new_state
  end.

(** The projections of [__call__] and [extend_step]. *)
Definition project_qkv (query_in key_in value_in : JTensor R)
    (same : bool) : result (JTensor R * JTensor R * JTensor R) :=
  if combine_qkv p then
    assert! same ;;
    CombinedQKVProjectionLayer_call (combined_qkv self) query_in
  else
    query_proj <-- AttentionProjection_call (query self) query_in ;;
    key_proj <-- AttentionProjection_call (key self) key_in ;;
    value_proj <-- AttentionProjection_call (value self) value_in ;;
    ret (query_proj, key_proj, value_proj).

(** [__call__], for the [_dot_atten] of the class of [self]. *)
Definition call_with
    (dot_atten : JTensor R → JTensor R → JTensor R → JTensor R →
                 option (JTensor R) → result (JTensor R * JTensor R))
    (inputs : AttentionInputs) (atten_mask : JTensor R)
    (query_segment_pos key_segment_pos : option (JTensor Z))
  : M (JTensor R * JTensor R) :=
  qkv <- lift (project_qkv (query_vec_of inputs) (key_vec_of inputs)
                 (value_vec_of inputs)
                 (match inputs with SelfAttention _ => true
                                  | _ => false end)) ;
  let '(query_proj, key_proj, value_proj) := qkv in
  _fprop_update_decode_state "key_state" key_proj ;;;
  _fprop_update_decode_state "value_state" value_proj ;;;
  qkv <-
    (if dconv_qkv p then
       _fprop_update_decode_state "query_state" query_proj ;;;
       let query_proj :=
         CausalDepthwiseConv1D_call (dconv_q self) query_proj 1
                                    query_segment_pos in
       _fprop_update_decode_state "query_post_dconv" query_proj ;;;
       let key_proj :=
         CausalDepthwiseConv1D_call (dconv_k self) key_proj 1
                                    key_segment_pos in
       _fprop_update_decode_state "key_post_dconv" key_proj ;;;
       let value_proj :=
         CausalDepthwiseConv1D_call (dconv_v self) value_proj 1
                                    key_segment_pos in
       _fprop_update_decode_state "value_post_dconv" value_proj ;;;
       mret (query_proj, key_proj, value_proj)
     else mret (query_proj, key_proj, value_proj)) ;
  let '(query_proj, key_proj, value_proj) := qkv in
  qk <-
    (if use_rotary_position_emb p then
       let query_proj :=
         rotary_call (rotary_position_emb self) query_proj
                     query_segment_pos in
       let key_proj :=
         rotary_call (rotary_position_emb self) key_proj
                     key_segment_pos in
       _fprop_update_decode_state "key_post_rotary_pos_emb" key_proj ;;;
       mret (query_proj, key_proj)
     else mret (query_proj, key_proj)) ;
  let '(query_proj, key_proj) := qk in
  relative_bias_t <-
    lift (match relative_bias self with
          | Some rb =>
              b <-- RelativeBias_call rb query_segment_pos
                                      key_segment_pos ;;
              ret (Some b)
          | None => ret None
          end) ;
  ep <- lift (dot_atten query_proj key_proj value_proj atten_mask
                        relative_bias_t) ;
  let '(encoded, atten_probs) := ep in
  encoded <-
    match ngrammer self with
    | Some ng =>
        _fprop_update_decode_state "encoded_pre_ngrammer" encoded ;;;
        let attention_scores :=
          if ngram_using_attention_scores ng then Some atten_probs
          else None in
        mret (ngrammer_call ng encoded key_segment_pos attention_scores)
    | None => mret encoded
    end ;
  encoded <- lift (AttentionProjection_call (post self) encoded) ;
  mret (encoded, atten_probs).

(** [__call__] of [DotProductAttention]. *)
Definition __call__ := call_with (_dot_atten self).

(** [decoding_state_sequence_length] of [DotProductAttention]. *)
Definition decoding_state_sequence_length : M nat :=
  key_state <- get_decode_state "key_state" ;
  match key_state with
  | Some k => mret (ix (shape k) 1)
  | None => mraise AssertionError
  end.

(** [extend_step] of [DotProductAttention]: the output [B, D] at
    [time_step]. *)
Definition extend_step (query_vec atten_mask : JTensor R) (time_step : Z)
    (segment_pos : option (JTensor Z)) : M (JTensor R) :=
  let time_dim := 1 in
  qkv <- lift (project_qkv query_vec query_vec query_vec true) ;
  let '(new_query_proj, new_key_proj, new_value_proj) := qkv in
  let _extend_decode_state_and_shard name extend_value :=
    extend_decode_state name extend_value time_step time_dim in
  let key_state_name := "key_state" in
  key_state <- _extend_decode_state_and_shard key_state_name new_key_proj ;
  let value_state_name := "value_state" in
  value_state <-
    _extend_decode_state_and_shard value_state_name new_value_proj ;
  st <-
    (if dconv_qkv p then
       query_state <-
         _extend_decode_state_and_shard "query_state" new_query_proj ;
       let new_query_proj :=
         CausalDepthwiseConv1D_extend_step (dconv_q self) query_state
           time_dim time_step segment_pos in
       let new_key_proj :=
         CausalDepthwiseConv1D_extend_step (dconv_k self) key_state
           time_dim time_step segment_pos in
       let new_value_proj :=
         CausalDepthwiseConv1D_extend_step (dconv_v self) value_state
           time_dim time_step segment_pos in
       _ <- _extend_decode_state_and_shard "query_post_dconv"
                                           new_query_proj ;
       _ <- _extend_decode_state_and_shard "key_post_dconv" new_key_proj ;
       _ <- _extend_decode_state_and_shard "value_post_dconv"
                                           new_value_proj ;
       mret (new_query_proj, new_key_proj, "key_post_dconv",
             "value_post_dconv")
     else mret (new_query_proj, new_key_proj, key_state_name,
                value_state_name)) ;
  let '(new_query_proj, new_key_proj, key_state_name, value_state_name) :=
    st in
  st <-
    (if use_rotary_position_emb p then
       let position :=
         match segment_pos with
         | None => mkTensor [ix (shape query_vec) 0] (λ _, time_step)
         | Some pos => pos
         end in
       let new_query_proj :=
         rotary_extend_step (rotary_position_emb self) new_query_proj
                            position in
       let new_key_proj :=
         rotary_extend_step (rotary_position_emb self) new_key_proj
                            position in
       _ <- _extend_decode_state_and_shard "key_post_rotary_pos_emb"
                                           new_key_proj ;
       mret (new_query_proj, "key_post_rotary_pos_emb")
     else mret (new_query_proj, key_state_name)) ;
  let '(new_query_proj, key_state_name) := st in
  relative_bias_t <-
    match relative_bias self with
    | Some rb =>
        seq_length <- decoding_state_sequence_length ;
        b <- lift (RelativeBias_extend_step rb seq_length time_step) ;
        mret (Some b)
    | None => mret None
    end ;
  ep <- _dot_atten_one_step self new_query_proj key_state_name
                            value_state_name atten_mask relative_bias_t ;
  let '(encoded, atten_prob) := ep in
  encoded <-
    match ngrammer self with
    | Some ng =>
        encoded_state <-
          _extend_decode_state_and_shard "encoded_pre_ngrammer" encoded ;
        let attention_score :=
          if ngram_using_attention_scores ng then Some atten_prob
          else None in
        mret (ngrammer_extend_step ng encoded_state time_step
                                   attention_score)
    | None => mret encoded
    end ;
  lift (AttentionProjection_call (post self) encoded).

(** [lazy_broadcast_prefix] of [DotProductAttention]. *)
Definition lazy_broadcast_prefix (num_suffix_samples suffix_length : nat)
  : M unit :=
  mraise NotImplementedError.

End stateful.

End Attention.

(** ** [DotProductAttentionWithLPB]: lazy prefix broadcast *)

Module LPB.
Import Attention.

(** The name [f'{name}_{i}_pfx'] of prefix chunk [i] of a state. *)
Definition pfx_name (name : string) (i : nat) : string :=
  name +:+ "_" +:+ pretty i +:+ "_pfx".

(** The loop of [_broadcast_prefixes_count]; a map of [n] entries holds at
    most [n] of the names, so [n + 1] rounds of fuel are never used up. *)
Fixpoint count_prefixes (fuel : nat) (pfx : gmap string (JTensor R))
    (count : nat) : nat :=
  match fuel with
  | 0 => count
  | S fuel' =>
      if bool_decide (is_Some (pfx !! pfx_name "key_state" count))
      then count_prefixes fuel' pfx (S count)
      else count
  end.

(** [_broadcast_prefixes_count] *)
Definition _broadcast_prefixes_count (v : Variables) : nat :=
  match PREFIX_DECODE_CACHE v with
  | None => 0
  | Some pfx => count_prefixes (S (size pfx)) pfx 0
  end.

Definition broadcast_prefixes_count : M nat :=
  λ v, inr (_broadcast_prefixes_count v, v).

(** The suffix shape of [lazy_broadcast_prefix]. *)
Definition suffix_shape (sh : list nat) (prev_pfx_count : nat)
    (num_suffix_samples suffix_length : nat) : list nat :=
  take (prev_pfx_count + 1) sh
  ++ [num_suffix_samples; suffix_length]
  ++ drop (prev_pfx_count + 2) sh.

Section methods.
Variable self : DotProductAttention.
Variable mut : Mutable.
Let p := hparams self.

(** [lazy_broadcast_prefix] of [DotProductAttentionWithLPB]. *)
Definition lazy_broadcast_prefix (num_suffix_samples suffix_length : nat)
  : M unit :=
  prev_pfx_count <- broadcast_prefixes_count ;
  λ v,
    map_fold
      (λ name state (loop : M unit),
         loop ;;;
         (if mutable_PREFIX_DECODE_CACHE mut then mret tt
          else mraise AssertionError) ;;;
         put_prefix_variable (pfx_name name prev_pfx_count) state ;;;
         update_decode_state name
           (zeros (suffix_shape (shape state) prev_pfx_count
                                num_suffix_samples suffix_length)))
      (mret tt) (DECODE_CACHE v) v.

(** [_broadcast_prefix_length] *)
Definition _broadcast_prefix_length : M nat :=
  pfx_count <- broadcast_prefixes_count ;
  foldl (λ (acc : M nat) i,
           prefix_length <- acc ;
           x <- get_prefix_variable (pfx_name "key_state" i) ;
           mret (prefix_length + ix (shape x) (i + 1)))
        (mret 0) (seq 0 pfx_count).

(** [decoding_state_sequence_length] of the class. *)
Definition decoding_state_sequence_length : M nat :=
  pfx_count <- broadcast_prefixes_count ;
  key_state <- get_decode_state "key_state" ;
  match key_state with
  | None => mraise AssertionError
  | Some k =>
      prefix_length <- _broadcast_prefix_length ;
      mret (ix (shape k) (1 + pfx_count) + prefix_length)
  end.

(** [_decode_state_chunk_length] *)
Definition _decode_state_chunk_length (chunk_id : nat) : M nat :=
  let t_dim := chunk_id + 1 in
  pfx_count <- broadcast_prefixes_count ;
  if chunk_id =? pfx_count then
    key_state <- get_decode_state "key_state" ;
    match key_state with
    | None => mraise AssertionError
    | Some k => mret (ix (shape k) t_dim)
    end
  else
    x <- get_prefix_variable (pfx_name "key_state" chunk_id) ;
    mret (ix (shape x) t_dim).

(** [_slice_decode_chunk] *)
Definition _slice_decode_chunk (x : JTensor R) (chunk_id dim : nat)
  : M (JTensor R) :=
  pfx_count <- broadcast_prefixes_count ;
  start <-
    foldl (λ (acc : M nat) i,
             start <- acc ;
             let t_dim := i + 1 in
             c <- get_prefix_variable (pfx_name "key_state" i) ;
             mret (start + ix (shape c) t_dim))
          (mret 0) (seq 0 (Nat.min pfx_count chunk_id)) ;
  len <- _decode_state_chunk_length chunk_id ;
  let limit := start + len in
  mret (slice_in_dim x start limit dim).

(** A function that runs on one chunk of the decoding states
    ([FnOnDecodeStateChunk]): batched arguments, batched and shared
    arguments already cut to the chunk ([None] stays [None]), and the
    chunk's states. *)
Definition FnOnDecodeStateChunk : Type :=
  list (JTensor R) → list (option (JTensor R)) →
  list (option (JTensor R)) → list (JTensor R) → result (JTensor R).

(** [jax.tree_map] of [_slice_decode_chunk] over arguments and their
    time dimensions. *)
Fixpoint slice_all (xs : list (option (JTensor R))) (dims : list nat)
    (chunk_id : nat) : M (list (option (JTensor R))) :=
  match xs, dims with
  | Some x :: xs', d :: dims' =>
      y <- _slice_decode_chunk x chunk_id d ;
      ys <- slice_all xs' dims' chunk_id ;
      mret (Some y :: ys)
  | None :: xs', _ :: dims' =>
      ys <- slice_all xs' dims' chunk_id ;
      mret (None :: ys)
  | _, _ => mret []
  end.

(** The size of a mapped axis, read off the first mapped argument
    ([axis_size] only sizes the split of random-number generators, which
    decoding does not use). *)
Definition mapped_size (axis : nat) (xs : list (JTensor R))
    (axis_size : nat) : nat :=
  match xs with
  | x :: _ => ix (shape x) axis
  | [] => axis_size
  end.

Definition somes {A} (xs : list (option A)) : list A :=
  omap (λ x, x) xs.

(** [_vmap_on_broadcast_prefixes]: [fn] with its sliced arguments,
    mapped over the sample dimensions one at a time, from the inner
    [nn.vmap] ([i = 0]) to the outer. *)
Definition _vmap_on_broadcast_prefixes (v : Variables)
    (fn : FnOnDecodeStateChunk) (chunk_id : nat)
    (args_time_dims broadcast_args_time_dims : list nat)
  : FnOnDecodeStateChunk :=
  let _sliced_fn : FnOnDecodeStateChunk :=
    λ args args_to_slice broadcast_args_to_slice states,
      sliced <-- slice_all args_to_slice args_time_dims chunk_id v ;;
      broadcast_sliced <--
        slice_all broadcast_args_to_slice broadcast_args_time_dims
                  chunk_id v ;;
      fn args sliced.1 broadcast_sliced.1 states in
  let pfx_count := _broadcast_prefixes_count v in
  let broadcast_dim_sizes :=
    match DECODE_CACHE v !! "key_state" with
    | Some k => take pfx_count (drop 1 (shape k))
    | None => []
    end in
  foldl (λ (vfn : FnOnDecodeStateChunk) i,
           (λ args args_to_slice broadcast_args_to_slice states,
              vmap_out (i + 1)
                (mapped_size (i + 1) (args ++ somes args_to_slice)
                             (ix broadcast_dim_sizes i))
                (λ j, vfn (map (take_axis (i + 1) j) args)
                          (map (option_map (take_axis (i + 1) j))
                               args_to_slice)
                          broadcast_args_to_slice
                          (if i <? chunk_id
                           then map (take_axis (i + 1) j) states
                           else states))) : FnOnDecodeStateChunk)
        _sliced_fn (seq 0 pfx_count).

(** [_run_with_all_decode_state_chunks] *)
Definition _run_with_all_decode_state_chunks
    (fn : FnOnDecodeStateChunk) (chunk_inputs : list (JTensor R))
    (args_to_slice : list (option (JTensor R)))
    (args_time_dims : list nat)
    (broadcast_args_to_slice : list (option (JTensor R)))
    (broadcast_args_time_dims : list nat) (state_names : list string)
    (combine_results : list (JTensor R) → result (JTensor R))
  : M (JTensor R) :=
  pfx_count <- broadcast_prefixes_count ;
  results <-
    foldl (λ (acc : M (list (JTensor R))) i,
             results <- acc ;
             states <-
               foldr (λ s (rest : M (list (JTensor R))),
                        x <- (if i =? pfx_count then
                                st <- get_decode_state s ;
                                match st with
                                | Some x => mret x
                                | None => mraise AssertionError
                                end
                              else get_prefix_variable (pfx_name s i)) ;
                        xs <- rest ;
                        mret (x :: xs))
                     (mret []) state_names ;
             r <- (λ v, lift (_vmap_on_broadcast_prefixes v fn i
                                args_time_dims broadcast_args_time_dims
                                chunk_inputs args_to_slice
                                broadcast_args_to_slice states) v) ;
             mret (results ++ [r]))
          (mret []) (seq 0 (pfx_count + 1)) ;
  lift (combine_results results).

(** [_left_concat_decode_state] *)
Definition _left_concat_decode_state (state_name : string)
    (max_prefix_size : nat) : M (JTensor R) :=
  state <- get_decode_state state_name ;
  match state with
  | None => mraise AssertionError
  | Some state =>
      pfx_count <- broadcast_prefixes_count ;
      if pfx_count =? 0 then mret state
      else
        let batch_dims := take (1 + pfx_count) (shape state) in
        r <-
          foldl (λ (acc : M (list (JTensor R) * nat)) i,
                   st <- acc ;
                   let '(windows, prefix_window_size) := st in
                   if prefix_window_size =? 0 then mret st
                   else
                     let chunk_id := pfx_count - i - 1 in
                     pfx <- get_prefix_variable
                              (pfx_name state_name chunk_id) ;
                     let pfx_len := ix (shape pfx) (chunk_id + 1) in
                     let subwindow_len :=
                       Nat.min pfx_len prefix_window_size in
                     let prefix_window_size :=
                       prefix_window_size - subwindow_len in
                     let pfx :=
                       slice_in_dim pfx (pfx_len - subwindow_len) pfx_len
                                    (chunk_id + 1) in
                     let pfx :=
                       reshape (take (chunk_id + 1) batch_dims
                                ++ replicate (i + 1) 1
                                ++ drop (chunk_id + 1) (shape pfx)) pfx in
                     let pfx :=
                       broadcast_to
                         (batch_dims
                          ++ drop (length batch_dims) (shape pfx)) pfx in
                     mret (pfx :: windows, prefix_window_size))
                (mret ([state], max_prefix_size)) (seq 0 pfx_count) ;
        match r.1 with
        | w :: ws => mret (concatenate (pfx_count + 1) w ws)
        | [] => mraise ValueError
        end
  end.

(** [_dot_atten_one_step] of [DotProductAttentionWithLPB]. *)
Definition _dot_atten_one_step (query : JTensor R)
    (key_state_name value_state_name : string) (atten_mask : JTensor R)
    (relative_bias : option (JTensor R)) : M (JTensor R * JTensor R) :=
  pfx_count <- broadcast_prefixes_count ;
  key_state <- get_decode_state key_state_name ;
  match key_state with
  | None => mraise AssertionError
  | Some key_state =>
      let batch_dims := take (1 + pfx_count) (shape key_state) in
      let rb_batched :=
        match relative_bias with
        | Some rb => 1 <? ix (shape rb) 0
        | None => false
        end in
      let relative_bias :=
        if rb_batched then
          option_map (λ rb, reshape (batch_dims ++ drop 1 (shape rb)) rb)
                     relative_bias
        else relative_bias in
      let am_batched := 1 <? ix (shape atten_mask) 0 in
      let atten_mask :=
        if am_batched then
          reshape (batch_dims ++ drop 1 (shape atten_mask)) atten_mask
        else atten_mask in
      let _pre_softmax : FnOnDecodeStateChunk :=
        λ batched batched_slice non_batched_slice states,
          match batched, states with
          | q :: _, k :: _ =>
              let '(am, batched_slice, non_batched_slice) :=
                if am_batched
                then (head batched_slice, tail batched_slice,
                      non_batched_slice)
                else (head non_batched_slice, batched_slice,
                      tail non_batched_slice) in
              let rb :=
                if rb_batched then head batched_slice
                else head non_batched_slice in
              match am with
              | Some (Some am) =>
                  one_step_padded_logits self q k am (mjoin rb)
              | _ => raise ValueError
              end
          | _, _ => raise ValueError
          end in
      let batched_to_slice :=
        (if am_batched then [Some atten_mask] else [])
        ++ (if rb_batched then [relative_bias] else []) in
      let batched_to_slice_tdims :=
        (if am_batched then [2] else [])
        ++ (if rb_batched then [3] else []) in
      let non_batched_to_slice :=
        (if am_batched then [] else [Some atten_mask])
        ++ (if rb_batched then [] else [relative_bias]) in
      let non_batched_to_slice_tdims :=
        (if am_batched then [] else [2])
        ++ (if rb_batched then [] else [3]) in
      let _concat_logits chunks :=
        match chunks with
        | [] => raise ValueError
        | c :: rest => ret (concatenate (pfx_count + 2) c rest)
        end in
      padded_logits <-
        _run_with_all_decode_state_chunks _pre_softmax [query]
          batched_to_slice batched_to_slice_tdims non_batched_to_slice
          non_batched_to_slice_tdims [key_state_name] _concat_logits ;
      let probs := attention_probs self padded_logits in
      let _post_softmax : FnOnDecodeStateChunk :=
        λ batched ps non_batched states,
          match ps, states with
          | Some ps :: _, v :: _ => ret (einsum_BNS_BSNH ps v)
          | _, _ => raise ValueError
          end in
      encoded <-
        _run_with_all_decode_state_chunks _post_softmax [] [Some probs]
          [2] [] [] [value_state_name]
          (λ results,
             ret (foldl (tmap2 Rplus) (mkTensor [] (λ _, 0%R)) results)) ;
      mret (encoded, probs)
  end.

(** [_vmap_no_state] of [extend_step]: [fn] mapped over the sample
    dimensions, each [nn.vmap] with [in_axes=1] and [out_axes=1]. *)
Definition _vmap_no_state (pfx_count : nat) (batch_dims : list nat)
    (fn : list (JTensor R) → option (JTensor Z) → result (JTensor R))
  : list (JTensor R) → option (JTensor Z) → result (JTensor R) :=
  foldl (λ vfn i,
           λ args pos,
             vmap_out 1 (mapped_size 1 args (ix batch_dims (1 + i)))
               (λ j, vfn (map (take_axis 1 j) args)
                         (option_map (take_axis 1 j) pos)))
        fn (seq 0 pfx_count).

(** [_proj_qkv] of [extend_step], one component [sel] of its result at a
    time. *)
Definition _proj_qkv
    (sel : JTensor R * JTensor R * JTensor R → JTensor R)
    (args : list (JTensor R)) (_ : option (JTensor Z))
  : result (JTensor R) :=
  match args with
  | q :: _ => qkv <-- project_qkv self q q q true ;; ret (sel qkv)
  | [] => raise ValueError
  end.

(** [extend_step] of [DotProductAttentionWithLPB]. *)
Definition extend_step (query_vec atten_mask : JTensor R) (time_step : Z)
    (segment_pos : option (JTensor Z)) : M (JTensor R) :=
  pfx_count <- broadcast_prefixes_count ;
  key_state <- get_decode_state "key_state" ;
  match key_state with
  | None => mraise AssertionError
  | Some key_state =>
  let batch_dims := take (1 + pfx_count) (shape key_state) in
  let query_vec :=
    if 0 <? pfx_count
    then reshape (batch_dims ++ drop 1 (shape query_vec)) query_vec
    else query_vec in
  let segment_pos :=
    if 0 <? pfx_count
    then option_map (λ pos, reshape (batch_dims ++ drop 1 (shape pos)) pos)
                    segment_pos
    else segment_pos in
  let vmap_no_state := _vmap_no_state pfx_count batch_dims in
  new_query_proj <-
    lift (vmap_no_state (_proj_qkv (λ x, x.1.1)) [query_vec] None) ;
  new_key_proj <-
    lift (vmap_no_state (_proj_qkv (λ x, x.1.2)) [query_vec] None) ;
  new_value_proj <-
    lift (vmap_no_state (_proj_qkv (λ x, x.2)) [query_vec] None) ;
  prefix_length <- _broadcast_prefix_length ;
  let _extend_decode_state_and_shard name extend_value :=
    extend_decode_state name extend_value
      (time_step - Z.of_nat prefix_length) (1 + pfx_count) in
  let key_state_name := "key_state" in
  _ <- _extend_decode_state_and_shard key_state_name new_key_proj ;
  let value_state_name := "value_state" in
  _ <- _extend_decode_state_and_shard value_state_name new_value_proj ;
  st <-
    (if dconv_qkv p then
       _ <- _extend_decode_state_and_shard "query_state" new_query_proj ;
       let left_window_size :=
         Nat.min (kernel_size (dconv_q self) - 1) prefix_length in
       let _dconv (layer : CausalDepthwiseConv1D)
           (args : list (JTensor R)) (pos : option (JTensor Z)) :=
         match args with
         | x :: _ =>
             let t_dim := 1 in
             let left_window_size :=
               Nat.min (kernel_size (dconv_q self) - 1) prefix_length in
             let ts := (time_step - Z.of_nat prefix_length
                        + Z.of_nat left_window_size)%Z in
             ret (CausalDepthwiseConv1D_extend_step layer x t_dim ts pos)
         | [] => raise ValueError
         end in
       q <- _left_concat_decode_state "query_state" left_window_size ;
       k <- _left_concat_decode_state "key_state" left_window_size ;
       v <- _left_concat_decode_state "value_state" left_window_size ;
       new_query_proj <-
         lift (vmap_no_state (_dconv (dconv_q self)) [q] segment_pos) ;
       new_key_proj <-
         lift (vmap_no_state (_dconv (dconv_k self)) [k] segment_pos) ;
       new_value_proj <-
         lift (vmap_no_state (_dconv (dconv_v self)) [v] segment_pos) ;
       _ <- _extend_decode_state_and_shard "query_post_dconv"
                                           new_query_proj ;
       _ <- _extend_decode_state_and_shard "key_post_dconv" new_key_proj ;
       _ <- _extend_decode_state_and_shard "value_post_dconv"
                                           new_value_proj ;
       mret (new_query_proj, new_key_proj, "key_post_dconv",
             "value_post_dconv")
     else mret (new_query_proj, new_key_proj, key_state_name,
                value_state_name)) ;
  let '(new_query_proj, new_key_proj, key_state_name, value_state_name) :=
    st in
  st <-
    (if use_rotary_position_emb p then
       let position :=
         match segment_pos with
         | None => mkTensor batch_dims (λ _, time_step)
         | Some pos => pos
         end in
       let _rotary (args : list (JTensor R)) (pos : option (JTensor Z)) :=
         match args, pos with
         | x :: _, Some pos =>
             ret (rotary_extend_step (rotary_position_emb self) x pos)
         | _, _ => raise ValueError
         end in
       new_query_proj <-
         lift (vmap_no_state _rotary [new_query_proj] (Some position)) ;
       new_key_proj <-
         lift (vmap_no_state _rotary [new_key_proj] (Some position)) ;
       _ <- _extend_decode_state_and_shard "key_post_rotary_pos_emb"
                                           new_key_proj ;
       mret (new_query_proj, "key_post_rotary_pos_emb")
     else mret (new_query_proj, key_state_name)) ;
  let '(new_query_proj, key_state_name) := st in
  relative_bias_t <-
    match relative_bias self with
    | Some rb =>
        seq_length <- decoding_state_sequence_length ;
        b <- lift (RelativeBias_extend_step rb seq_length time_step) ;
        mret (Some b)
    | None => mret None
    end ;
  ep <- _dot_atten_one_step new_query_proj key_state_name
                            value_state_name atten_mask relative_bias_t ;
  let '(encoded, atten_prob) := ep in
  encoded <-
    match ngrammer self with
    | Some ng =>
        if 0 <? pfx_count then mraise NotImplementedError
        else
          encoded_state <-
            _extend_decode_state_and_shard "encoded_pre_ngrammer"
                                           encoded ;
          mret (ngrammer_extend_step ng encoded_state time_step None)
    | None => mret encoded
    end ;
  let encoded :=
    if 0 <? pfx_count then
      let rest := drop (1 + pfx_count) (shape encoded) in
      reshape (prod_list (take (1 + pfx_count) (shape encoded)) :: rest)
              encoded
    else encoded in
  lift (AttentionProjection_call (post self) encoded)
  end.

End methods.
End LPB.

(** ** Runs of lazy prefix broadcasts *)

Module LPBSpec.
Import Attention.

(** A run of [lazy_broadcast_prefix] calls, one for each pair
    [(num_suffix_samples, suffix_length)]. *)
Fixpoint broadcast_all (mut : Mutable) (bs : list (nat * nat)) : M unit :=
  match bs with
  | [] => mret tt
  | (num_suffix_samples, suffix_length) :: bs' =>
      LPB.lazy_broadcast_prefix mut num_suffix_samples suffix_length ;;;
      broadcast_all mut bs'
  end.

(** The time lengths of the chunks that such a run freezes, from a key
    state of time length [T]: [T] itself, then the suffix length of every
    call but the last. *)
Fixpoint frozen_lengths (T : nat) (bs : list (nat * nat)) : list nat :=
  match bs with
  | [] => []
  | (_, suffix_length) :: bs' => T :: frozen_lengths suffix_length bs'
  end.

(** The prefix collection of [v] holds the key prefixes [0 .. k-1] and no
    further one, and prefix [j] has time length [lens[j]], for [lens] of
    length [k]. *)
Definition holds_prefixes (v : Variables) (lens : list nat) : Prop :=
  (∀ j, j < length lens →
     ∃ x, default ∅ (PREFIX_DECODE_CACHE v) !! LPB.pfx_name "key_state" j
          = Some x
          ∧ ix (shape x) (j + 1) = nth j lens 0)
  ∧ (∀ j, length lens ≤ j →
       default ∅ (PREFIX_DECODE_CACHE v) !! LPB.pfx_name "key_state" j
       = None).

(** The component [sel] of the projections that [LPB.extend_step] computes
    from [query_vec] in the state [v]. *)
Definition new_projection (self : DotProductAttention)
    (sel : JTensor R * JTensor R * JTensor R → JTensor R)
    (query_vec : JTensor R) (v : Variables) : result (JTensor R) :=
  let pfx_count := LPB._broadcast_prefixes_count v in
  match DECODE_CACHE v !! "key_state" with
  | None => raise AssertionError
  | Some key_state =>
      let batch_dims := take (1 + pfx_count) (shape key_state) in
      let query_vec :=
        if 0 <? pfx_count
        then reshape (batch_dims ++ drop 1 (shape query_vec)) query_vec
        else query_vec in
      LPB._vmap_no_state pfx_count batch_dims (LPB._proj_qkv self sel)
                         [query_vec] None
  end.

(** The state names of the keys and of the values, each with its component
    of the projections. *)
Definition key_value_states
  : list (string * (JTensor R * JTensor R * JTensor R → JTensor R)) :=
  [("key_state", λ qkv, qkv.1.2); ("value_state", λ qkv, qkv.2)].

End LPBSpec.

(** ** [LocalSelfAttention] *)

Module Local.
Import Attention.

(** [jnp.roll(x, shift, axis)]. *)
Definition roll {A} (x : JTensor A) (shift : Z) (axis : nat) : JTensor A :=
  mkTensor (shape x)
    (λ idx,
       let n := Z.of_nat (ix (shape x) axis) in
       data x (<[axis := Z.to_nat ((Z.of_nat (ix idx axis) - shift) `mod` n)]>
                 idx)).

(** [_convert_to_block] *)
Definition _convert_to_block (x : JTensor R) (block_size : Z)
    (padding_val : R) : result (JTensor R) :=
  let sh := shape x in
  let '(b, t) := (ix sh 0, ix sh 1) in
  if (block_size <? 1)%Z then raise ValueError
  else
    let w := Z.to_nat block_size in
    let num_blocks := (t + w - 1) / w in
    let pad_length := num_blocks * w - t in
    let x := if 0 <? pad_length then pad_axis 1 0 pad_length padding_val x
             else x in
    ret (reshape ([b; num_blocks; w] ++ drop 2 sh) x).

(** [_extract_block_context] *)
Definition _extract_block_context (x : JTensor R)
    (block_size left_context right_context : Z) (padding_val : R)
  : result (JTensor R) :=
  if (block_size <? 1)%Z then raise ValueError
  else if (left_context <? 1)%Z || (block_size + 1 <? left_context)%Z
  then raise ValueError
  else if (right_context <? 0)%Z || (block_size <? right_context)%Z
  then raise ValueError
  else
    block <-- _convert_to_block x block_size padding_val ;;
    let concat_list := [block] in
    concat_list <--
      (if (1 <? left_context)%Z then
         left_block <--
           (if (block_size =? left_context - 1)%Z
            then ret (roll block 1 1)
            else
              let x_shift := roll x (left_context - 1) 1 in
              x_shift_block <--
                _convert_to_block x_shift block_size padding_val ;;
              ret (slice_in_dim x_shift_block 0
                                (Z.to_nat (left_context - 1)) 2)) ;;
         ret (left_block :: concat_list)
       else ret concat_list) ;;
    concat_list <--
      (if (0 <? right_context)%Z then
         right_block <--
           (if (block_size =? right_context)%Z
            then ret (roll block (-1) 1)
            else
              let x_shift := roll x (- right_context) 1 in
              x_shift_block <--
                _convert_to_block x_shift block_size padding_val ;;
              let w := ix (shape x_shift_block) 2 in
              ret (slice_in_dim x_shift_block
                                (w - Z.to_nat right_context) w 2)) ;;
         ret (concat_list ++ [right_block])
       else ret concat_list) ;;
    match concat_list with
    | c :: rest => ret (concatenate 2 c rest)
    | [] => raise ValueError
    end.

(** [_make_local_mask]: entry [b, i, j] is 1 when frame [i] of block [b]
    may attend to frame [j] of the block's context. *)
Definition _make_local_mask (seq_len : nat) (block_size left_context
    right_context : Z) : result (JTensor R) :=
  assert! (0 <? seq_len) ;;
  let w := Z.to_nat block_size in
  let num_blocks := (seq_len + w - 1) / w in
  let context_size := Z.to_nat (block_size + (left_context - 1)
                                + right_context) in
  ret (mkTensor [num_blocks; w; context_size]
         (λ idx,
            let '(u, i, j) := (ix idx 0, ix idx 1, ix idx 2) in
            let src_position := Z.of_nat (u * w + i) in
            let block_start_position := Z.of_nat (u * w) in
            let relative_context_position :=
              (Z.of_nat j - (left_context - 1))%Z in
            let tgt_position :=
              (block_start_position + relative_context_position)%Z in
            let position_diff := (src_position - tgt_position)%Z in
            let valid_atten :=
              (- right_context <=? position_diff)%Z
              && (position_diff <? left_context)%Z in
            let valid_src := (src_position <? Z.of_nat seq_len)%Z in
            let valid_tgt :=
              (0 <=? tgt_position)%Z
              && (tgt_position <? Z.of_nat seq_len)%Z in
            bool_to_R (valid_atten && (valid_src && valid_tgt)))).

Record LocalHParams : Type := {
  block_size : Z;
  left_context : Z;
  right_context : Z
}.

Section methods.
Context `{PyUtils}.
Variable self : DotProductAttention.
Variable lp : LocalHParams.

(** [_atten_logits] of the class: ['buwnh,bucnh->bnuwc']. *)
Definition _atten_logits (query key : JTensor R) : JTensor R :=
  mkTensor [ix (shape query) 0; ix (shape query) 3; ix (shape query) 1;
            ix (shape query) 2; ix (shape key) 2]
    (λ idx,
       let '(b, n, u, w, c) :=
         (ix idx 0, ix idx 1, ix idx 2, ix idx 3, ix idx 4) in
       rsum (ix (shape query) 4)
            (λ h, data query [b; u; w; n; h]
                  * data key [b; u; c; n; h])%R).

(** [_dot_atten] of the class. *)
Definition _dot_atten (query key value atten_mask : JTensor R)
    (relative_bias : option (JTensor R))
  : result (JTensor R * JTensor R) :=
  match relative_bias with
  | Some _ => raise NotImplementedError
  | None =>
  match shape key with
  | [b; s; n; h] =>
      _ <-- assert_has_shape value [Some b; Some s; Some n; Some h] ;;
      _ <-- assert_has_shape query [Some b; None; Some n; Some h] ;;
      let t := ix (shape query) 1 in
      _ <-- assert_has_shape atten_mask [None; Some 1; None; Some s] ;;
      assert! (is_in (ix (shape atten_mask) 2) [1; t]) ;;
      assert! (is_in (ix (shape atten_mask) 0) [1; b]) ;;
      query <-- _scale_query self query ;;
      key_block_context <--
        _extract_block_context key (block_size lp) (left_context lp)
                               (right_context lp) 0 ;;
      let '(u, c) := (ix (shape key_block_context) 1,
                      ix (shape key_block_context) 2) in
      query_blocks <-- _convert_to_block query (block_size lp) 0 ;;
      let w := ix (shape query_blocks) 2 in
      let minus_inf := get_large_negative_number float32 in
      mask <--
        (if ix (shape atten_mask) 2 =? 1 then
           let mask := take_axis 1 0 (take_axis 1 0 atten_mask) in
           mask_block_context <--
             _extract_block_context mask (block_size lp)
               (left_context lp) (right_context lp) minus_inf ;;
           ret (tile [1; n; 1; w; 1]
                     (reshape [b; 1; u; 1; c] mask_block_context))
         else
           mask_block_context <--
             _convert_to_block (take_axis 1 0 atten_mask) (block_size lp)
                               minus_inf ;;
           let mask_block_context :=
             reshape [b * u * w; t] mask_block_context in
           mask_block_context <--
             _extract_block_context mask_block_context (block_size lp)
               (left_context lp) (right_context lp) minus_inf ;;
           let mask_block_context :=
             reshape [b; u; w; u; c] mask_block_context in
           (* einsum('buwuc->buwc') *)
           let mask_block_context :=
             mkTensor [b; u; w; c]
               (λ idx, data mask_block_context
                         [ix idx 0; ix idx 1; ix idx 2; ix idx 1;
                          ix idx 3]) in
           let mask :=
             tile [1; n; 1; 1; 1] (expand_dims 1 mask_block_context) in
           assert! (bool_decide (shape mask = [b; n; u; w; c])) ;;
           ret mask) ;;
      local_causal_mask <--
        _make_local_mask t (block_size lp) (left_context lp)
                         (right_context lp) ;;
      let mask :=
        tmap2 Rmin mask
              (tmap (λ x, (1 - x) * minus_inf)%R local_causal_mask) in
      let logits := _atten_logits query_blocks key_block_context in
      let logits := _cap_logits self logits in
      let padded_logits := tmap2 Rplus logits mask in
      let probs := attention_probs self padded_logits in
      let probs := atten_dropout self probs in
      value_block_context <--
        _extract_block_context value (block_size lp) (left_context lp)
                               (right_context lp) 0 ;;
      (* einsum('bnuwc,bucnh->buwnh') *)
      let encoded :=
        mkTensor [b; u; w; n; h]
          (λ idx,
             let '(bi, ui, wi, ni, hi) :=
               (ix idx 0, ix idx 1, ix idx 2, ix idx 3, ix idx 4) in
             rsum c (λ ci, data probs [bi; ni; ui; wi; ci]
                           * data value_block_context
                                  [bi; ui; ci; ni; hi])%R) in
      let encoded := reshape [b; u * w; n; h] encoded in
      let encoded := slice_in_dim encoded 0 (ix (shape query) 1) 1 in
      ret (encoded, probs)
  | _ => raise ValueError
  end
  end.

(** [__call__] is inherited and reaches the class's [_dot_atten]. *)
Definition __call__ (mut : Mutable) := call_with self mut _dot_atten.

(** [_dot_atten_one_step] of the class. *)
Definition _dot_atten_one_step (query : JTensor R)
    (key_state_name value_state_name : string) (atten_mask : JTensor R)
    (relative_bias : option (JTensor R)) : M (JTensor R * JTensor R) :=
  mraise NotImplementedError.

(** [extend_step] of the class. *)
Definition extend_step (query_vec atten_mask : JTensor R) (time_step : Z)
  : M (JTensor R) :=
  mraise NotImplementedError.

End methods.
End Local.

(** ** Layers compared in the statements *)

Module LayerSpec.
Import Attention.

(** The same layer configured without an n-grammer. *)
Definition without_ngrammer (self : DotProductAttention)
  : DotProductAttention :=
  {| hparams := hparams self;
     query := query self;
     key := key self;
     value := value self;
     combined_qkv := combined_qkv self;
     post := post self;
     per_dim_scale := per_dim_scale self;
     atten_dropout := atten_dropout self;
     dconv_q := dconv_q self;
     dconv_k := dconv_k self;
     dconv_v := dconv_v self;
     rotary_position_emb := rotary_position_emb self;
     relative_bias := relative_bias self;
     ngrammer := None |}.

(** [y] raises [NotImplementedError] whenever [x] returns. *)
Definition raises_where_returns {A B} (x : result A) (y : result B) : Prop :=
  ∀ r, x = inr r → y = inl NotImplementedError.

(** [x] does not return a value. *)
Definition never_returns {A} (x : result A) : Prop := ∀ r, x ≠ inr r.

(** Whether [x] is a value. *)
Definition returns {A} (x : result A) : bool :=
  match x with inr _ => true | inl _ => false end.

(** Every returning run of [m] takes a state to one that [P] relates to
    it. *)
Definition preserves {A} (P : Variables → Variables → Prop) (m : M A)
  : Prop :=
  ∀ v a v', m v = inr (a, v') → P v v'.

(** The entry [name] of the decode cache is the same in both states. *)
Definition same_entry (name : string) (v v' : Variables) : Prop :=
  DECODE_CACHE v' !! name = DECODE_CACHE v !! name.

End LayerSpec.

(** ** Concrete inputs used to instantiate the theorems *)

Module Examples.

(** Two sequences of length 3, the last position of the first one padded. *)
Definition example_paddings : list nat → R :=
  λ idx, if (ix idx 0 =? 0) && (ix idx 1 =? 2) then 1%R else 0%R.

Import Attention.

Definition ones (sh : list nat) : JTensor R := mkTensor sh (λ _, 1%R).

(** Projections with all weights 1 and no bias. *)
Definition example_projection (output : bool) : AttentionProjection :=
  {| ap_input_dim := 1; ap_num_heads := 1; ap_dim_per_head := 1;
     is_output_projection := output; ap_use_bias := false;
     ap_attention_combine_dims := false; use_nhd_shape := false;
     ap_w := ones [1; 1; 1]; ap_b := zeros [1; 1] |}.

Definition example_hparams (cap : R) (extra_logit : option R) : HParams :=
  {| input_dim := 1; hidden_dim := 1; num_heads := 1; dim_per_head := 1;
     dconv_qkv := false; combine_qkv := false;
     internal_enable_query_scale := false;
     internal_enable_per_dim_scale := false;
     atten_logit_cap := cap;
     use_rotary_position_emb := false;
     attention_extra_logit := extra_logit;
     decode_cache := true |}.

(** A single-head layer of model dimension 1, with logit cap [cap], no
    query scaling, no dropout and no optional sub-layer. *)
Definition example_layer (cap : R) (extra_logit : option R)
  : DotProductAttention :=
  {| hparams := example_hparams cap extra_logit;
     query := example_projection false;
     key := example_projection false;
     value := example_projection false;
     combined_qkv :=
       {| cq_input_dim := 1; cq_num_heads := 1; cq_dim_per_head := 1;
          cq_use_bias := false; cq_attention_combine_dims := false;
          cq_w := ones [3; 1; 1; 1]; cq_b := zeros [3; 1; 1] |};
     post := example_projection true;
     per_dim_scale := {| pds_dim := 1; pds_theta := zeros [1] |};
     atten_dropout := λ probs, probs;
     dconv_q := {| kernel_size := 1; dconv := λ _, ones [1; 1] |};
     dconv_k := {| kernel_size := 1; dconv := λ _, ones [1; 1] |};
     dconv_v := {| kernel_size := 1; dconv := λ _, ones [1; 1] |};
     rotary_position_emb :=
       {| rotary_call := λ x _, x; rotary_extend_step := λ x _, x |};
     relative_bias := None;
     ngrammer := None |}.



(** Both collections writable. *)
Definition example_mutable : Mutable :=
  {| mutable_DECODE_CACHE := true; mutable_PREFIX_DECODE_CACHE := true |}.

(** The state that one [lazy_broadcast_prefix] call with two samples of
    suffix length 2 makes of [example_cache] below. *)
Definition example_broadcast_cache : Variables :=
  {| DECODE_CACHE := {[ "key_state" := zeros [1; 2; 2; 1; 1];
                        "value_state" := zeros [1; 2; 2; 1; 1] ]};
     PREFIX_DECODE_CACHE :=
       Some {[ "key_state_0_pfx" := zeros [1; 2; 1; 1];
               "value_state_0_pfx" := zeros [1; 2; 1; 1] ]} |}.

(** A decode cache of length 2 for one sequence, one head of dimension 1,
    and no prefix collection. *)
Definition example_cache : Variables :=
  {| DECODE_CACHE := {[ "key_state" := zeros [1; 2; 1; 1];
                        "value_state" := zeros [1; 2; 1; 1] ]};
     PREFIX_DECODE_CACHE := None |}.

End Examples.


(* ================================================================== *)
(** * Proofs *)

(** ** Index arithmetic *)

Module TensorFacts.

Lemma if_same {A} (c : bool) (x : A) : (if c then x else x) = x.
Proof. by destruct c. Qed.


Lemma Z_ltb_of_nat (i j : nat) : (Z.of_nat i <? Z.of_nat j)%Z = (i <? j).
Proof.
  destruct (Nat.ltb_spec i j), (Z.ltb_spec (Z.of_nat i) (Z.of_nat j)); lia.
Qed.

End TensorFacts.

Export TensorFacts.

#[global] Arguments Nat.ltb : simpl never.
#[global] Arguments Nat.modulo : simpl nomatch.

(** An index below a dimension of size 1 is 0. *)
Ltac zero_lt1 :=
  repeat match goal with
         | H : ?x < 1 |- _ =>
             first [ is_var x; assert (x = 0) by lia; subst x; clear H
                   | clear H ]
         end.

Ltac tsimpl := simpl; unfold broadcast_shapes, ix; simpl.

(** Decides every test "is this dimension 1?" that broadcasting leaves in
    the goal, and removes the reductions modulo a dimension. *)
Ltac case_dims :=
  tsimpl;
  rewrite ?Nat.mul_1_r, ?Nat.add_0_r, ?if_same;
  repeat match goal with
         | |- context [(?d =? 1)%nat] =>
             destruct (Nat.eqb_spec d 1);
             [ try subst d; zero_lt1 | ];
             tsimpl; rewrite ?if_same
         end;
  repeat (rewrite Nat.mod_small by lia).

(** ** The constant of [py_utils] *)

Lemma dtype_max_pos (d : DType) : (0 < dtype_max d)%R.
Proof.
  assert (H2 : ∀ n, (0 < 2 ^ n)%R) by (intros n; apply pow_lt; lra).
  assert (H1 : ∀ n, (1 <= 2 ^ n)%R) by (intros n; apply pow_R1_Rle; lra).
  assert (Hinv : ∀ n, (/ 2 ^ n <= 1)%R).
  { intros n. rewrite <- Rinv_1. apply Rinv_le_contravar; [lra | apply H1]. }
  destruct d; cbv beta iota delta [dtype_max].
  - apply Rmult_lt_0_compat; [pose proof (Hinv 23%nat); lra | apply H2].
  - apply Rmult_lt_0_compat; [pose proof (Hinv 7%nat); lra | apply H2].
  - apply Rmult_lt_0_compat; [pose proof (Hinv 52%nat); lra | apply H2].
  - assert (2 ^ 1 <= 2 ^ 31)%R by (apply Rle_pow; [lra | lia]). lra.
  - assert (2 ^ 1 <= 2 ^ 63)%R by (apply Rle_pow; [lra | lia]). lra.
Qed.

Lemma praxis_py_utils_spec : @PyUtilsSpec praxis_py_utils.
Proof.
  constructor. intros d. simpl. pose proof (dtype_max_pos d). lra.
Qed.

(** ** Inversion of computations that may raise *)





(** ** Mask builders *)

Import Masks MaskSpec Examples.

(** C6: for every segment-id tensor [B, T], [causal_segment_mask] (the
    elementwise minimum of the segment mask and the causal mask) returns the
    mask [B, 1, T, T] that directly disallows the pairs [(i, j)] in different
    segments or with [j > i]: the large negative constant there, 0 on the
    other pairs. *)
Theorem causal_segment_mask_is_direct_mask `{PyUtils} `{!PyUtilsSpec}
    (b t : nat) (segment_ids : list nat → Z) (dtype : DType) :
  is_float32 dtype || is_bfloat16 dtype = true →
  ∃ m, causal_segment_mask (mkTensor [b; t] segment_ids) dtype None = inr m
       ∧ shape m = [b; 1; t; t]
       ∧ ∀ bi i j, bi < b → i < t → j < t →
           data m [bi; 0; i; j]
           = data (direct_causal_segment_mask b t
                     (mkTensor [b; t] segment_ids) dtype) [bi; 0; i; j]
           ∧ data m [bi; 0; i; j]
             = (if negb (segment_ids [bi; i] =? segment_ids [bi; j])%Z
                   || (i <? j)
                then get_large_negative_number dtype else 0%R).
Proof.
  intros Hd. unfold causal_segment_mask, causal_mask. simpl shape.
  rewrite Hd. simpl. eexists. split; [reflexivity|]. split.
  - case_dims; reflexivity.
  - intros bi i j Hb Hi Hj.
    assert (Hgoal : ∀ P : Prop, P → P ∧ P) by tauto.
    apply Hgoal. case_dims.
    all: rewrite ?Z_ltb_of_nat.
    all: pose proof (large_negative_lt0 dtype) as HL.
    all: repeat match goal with
                | |- context [(?a =? ?b)%Z] => destruct (a =? b)%Z
                end;
         repeat match goal with
                | |- context [(?a <? ?b)] => destruct (Nat.ltb_spec a b)
                end;
         try lia; simpl; unfold Rmin; destruct (Rle_dec _ _); lra.
Qed.

Lemma causal_segment_mask_is_direct_mask_witness :
  ∃ m, @causal_segment_mask praxis_py_utils
         (mkTensor [1; 2] (λ idx, Z.of_nat (ix idx 1))) float32 None = inr m
       ∧ shape m = [1; 1; 2; 2]
       ∧ ∀ bi i j, bi < 1 → i < 2 → j < 2 →
           data m [bi; 0; i; j]
           = data (@direct_causal_segment_mask praxis_py_utils 1 2
                     (mkTensor [1; 2] (λ idx, Z.of_nat (ix idx 1))) float32)
                  [bi; 0; i; j]
           ∧ data m [bi; 0; i; j]
             = (if negb (Z.of_nat (ix [bi; i] 1) =? Z.of_nat (ix [bi; j] 1))%Z
                   || (i <? j)
                then @get_large_negative_number praxis_py_utils float32
                else 0%R).
Proof.
  exact (@causal_segment_mask_is_direct_mask praxis_py_utils
           praxis_py_utils_spec 1 2 (λ idx, Z.of_nat (ix idx 1)) float32
           eq_refl).
Defined.

(** C10: for every binary padding tensor [B, T] and window configuration,
    [limited_context_mask_from_padding] is the elementwise minimum of the
    window mask, the padding mask over keys and the transposed padding mask
    over queries; so attention from a padded query position is forbidden too:
    the row of a padded query is the large negative constant throughout. *)
Theorem limited_context_mask_forbids_padded_queries `{PyUtils} `{!PyUtilsSpec}
    (b t : nat) (paddings : list nat → R)
    (left_context right_context : option Z) (dtype : DType) :
  (∀ bi i, bi < b → i < t →
     paddings [bi; i] = 0%R ∨ paddings [bi; i] = 1%R) →
  (get_large_negative_number float32 <= get_large_negative_number dtype)%R →
  let m := limited_context_mask_from_padding (mkTensor [b; t] paddings)
             left_context right_context dtype in
  shape m = [b; 1; t; t]
  ∧ ∀ bi i j, bi < b → i < t → j < t →
      data m [bi; 0; i; j]
      = Rmin (Rmin (bool_to_R
                      (window_forbidden t left_context right_context i j)
                    * get_large_negative_number dtype)
                   (paddings [bi; j] * get_large_negative_number float32))
             (paddings [bi; i] * get_large_negative_number float32)
      ∧ (paddings [bi; i] = 1%R →
         data m [bi; 0; i; j] = get_large_negative_number float32).
Proof.
  intros Hbin HL m. subst m. unfold limited_context_mask_from_padding. split.
  - case_dims; reflexivity.
  - intros bi i j Hb Hi Hj.
    destruct (Hbin bi j Hb Hj) as [Hj0|Hj1], (Hbin bi i Hb Hi) as [Hi0|Hi1].
    all: pose proof (large_negative_lt0 dtype) as HLd.
    all: pose proof (large_negative_lt0 float32) as HLf.
    all: case_dims; unfold window_forbidden.
    all: rewrite ?Hj0, ?Hj1, ?Hi0, ?Hi1.
    all: split; [reflexivity|].
    all: intros Hone; try lra.
    all: match goal with |- context [bool_to_R ?c] => destruct c end; simpl.
    all: unfold Rmin; repeat destruct (Rle_dec _ _); lra.
Qed.

Lemma limited_context_mask_forbids_padded_queries_witness :
  let m := @limited_context_mask_from_padding praxis_py_utils
             (mkTensor [2; 3] example_paddings) (Some 2%Z) None float32 in
  shape m = [2; 1; 3; 3]
  ∧ ∀ bi i j, bi < 2 → i < 3 → j < 3 →
      data m [bi; 0; i; j]
      = Rmin (Rmin (bool_to_R (window_forbidden 3 (Some 2%Z) None i j)
                    * @get_large_negative_number praxis_py_utils float32)
                   (example_paddings [bi; j]
                    * @get_large_negative_number praxis_py_utils float32))
             (example_paddings [bi; i]
              * @get_large_negative_number praxis_py_utils float32)
      ∧ (example_paddings [bi; i] = 1%R →
         data m [bi; 0; i; j]
         = @get_large_negative_number praxis_py_utils float32).
Proof.
  apply (@limited_context_mask_forbids_padded_queries praxis_py_utils
           praxis_py_utils_spec 2 3 example_paddings (Some 2%Z) None float32).
  - intros bi i _ _. unfold example_paddings.
    destruct ((ix [bi; i] 0 =? 0) && (ix [bi; i] 1 =? 2)); auto.
  - apply Rle_refl.
Defined.


(** ** The hyperbolic tangent *)

Module TanhFacts.
#[local] Open Scope R_scope.
















End TanhFacts.

(** ** Logit capping *)

Module CapFacts.
Import Attention TanhFacts.
#[local] Open Scope R_scope.






End CapFacts.

Import Attention Examples.





(** ** Sums and the softmax *)

Module SumFacts.
#[local] Open Scope R_scope.


Lemma rsum_plus (n : nat) (f g : nat → R) :
  rsum n (λ i, f i + g i) = rsum n f + rsum n g.
Proof. induction n as [|n IH]; simpl; [|rewrite IH]; lra. Qed.


Lemma rsum_scal_l (n : nat) (c : R) (f : nat → R) :
  rsum n (λ i, c * f i) = c * rsum n f.
Proof. induction n as [|n IH]; simpl; [|rewrite IH]; lra. Qed.












End SumFacts.


(** ** Full-sequence attention *)

Module AttentionFacts.
Import Attention SumFacts.












Lemma bc_index_mask (mb mt s bi ni ti si : nat) :
  bc_index [mb; 1; mt; s] [bi; ni; ti; si]
  = bc_index [mb; 1; mt; s] [bi; 0; ti; si].
Proof. reflexivity. Qed.




End AttentionFacts.

Import Attention Examples AttentionFacts SumFacts.






(** ** The decode cache *)

Module CacheFacts.
Import Attention.

Lemma clamp_start_same (d : nat) : clamp_start d d 0 = 0.
Proof. unfold clamp_start. simpl. lia. Qed.

Lemma clamp_start_in_range (dim : nat) (i : Z) :
  (0 <= i < Z.of_nat dim)%Z → clamp_start dim 1 i = Z.to_nat i.
Proof.
  intros Hi. unfold clamp_start.
  destruct (Z.ltb_spec i 0); [lia|]. f_equal. lia.
Qed.

(** The start indices of the update of [extend_decode_state]. *)
Lemma update_starts (pre post : list nat) (T : nat) (ts : Z) :
  (0 <= ts < Z.of_nat T)%Z →
  zip_with (λ ds i, clamp_start ds.1 ds.2 i)
           (zip (pre ++ T :: post) (pre ++ 1 :: post))
           (<[length pre := ts]> (replicate (length (pre ++ 1 :: post)) 0%Z))
  = replicate (length pre) 0 ++ Z.to_nat ts :: replicate (length post) 0.
Proof.
  intros Hts. induction pre as [|d pre IH]; simpl.
  - rewrite clamp_start_in_range by exact Hts. f_equal.
    induction post as [|d post IH]; simpl; [reflexivity|].
    by rewrite clamp_start_same, IH.
  - rewrite clamp_start_same. f_equal. exact IH.
Qed.

Lemma valid_index_app_inv (pre post idx : list nat) (T : nat) :
  valid_index (pre ++ T :: post) idx →
  ∃ ipre it ipost,
    idx = ipre ++ it :: ipost ∧ length ipre = length pre
    ∧ length ipost = length post ∧ it < T
    ∧ valid_index pre ipre ∧ valid_index post ipost.
Proof.
  unfold valid_index. intros H.
  apply Forall2_app_inv_r in H as (ipre & irest & Hpre & Hrest & ->).
  apply Forall2_cons_inv_r in Hrest as (it & ipost & Hit & Hpost & ->).
  exists ipre, it, ipost. repeat split; try done.
  - by apply Forall2_length in Hpre.
  - by apply Forall2_length in Hpost.
Qed.

Lemma window_test (pre post ipre ipost : list nat) (it ts : nat) :
  valid_index pre ipre → valid_index post ipost →
  forallb (λ '(i, s, u), (s <=? i) && (i <? s + u))
          (zip (zip (ipre ++ it :: ipost)
                    (replicate (length pre) 0 ++ ts
                     :: replicate (length post) 0))
               (pre ++ 1 :: post))
  = (it =? ts).
Proof.
  intros Hpre Hpost. induction Hpre as [|i d ipre pre Hi Hpre IH]; simpl.
  - assert (Hrest : forallb (λ '(i, s, u), (s <=? i) && (i <? s + u))
              (zip (zip ipost (replicate (length post) 0)) post) = true).
    { induction Hpost as [|i d ipost post Hi Hpost IH]; simpl; [done|].
      rewrite IH. destruct (Nat.ltb_spec i d); [done | lia]. }
    rewrite Hrest, andb_true_r.
    destruct (Nat.eqb_spec it ts), (Nat.leb_spec ts it),
      (Nat.ltb_spec it (ts + 1)); simpl; lia || done.
  - rewrite IH. destruct (Nat.ltb_spec i d); [done | lia].
Qed.

Lemma sub_starts (pre post ipre ipost : list nat) (it ts : nat) :
  length ipre = length pre → length ipost = length post →
  zip_with Nat.sub (ipre ++ it :: ipost)
           (replicate (length pre) 0 ++ ts :: replicate (length post) 0)
  = ipre ++ (it - ts) :: ipost.
Proof.
  intros Hpre Hpost. rewrite zip_with_app by (rewrite length_replicate; done).
  simpl. f_equal; [|f_equal].
  - rewrite <- Hpre. clear. induction ipre; simpl; [done|].
    rewrite Nat.sub_0_r. by f_equal.
  - rewrite <- Hpost. clear. induction ipost; simpl; [done|].
    rewrite Nat.sub_0_r. by f_equal.
Qed.

(** Writing a slice at one position of the time dimension. *)
Lemma dynamic_update_slice_expand_dims {A} (state value : JTensor A)
    (pre post : list nat) (T : nat) (ts : Z) (idx : list nat) :
  shape state = pre ++ T :: post → shape value = pre ++ post →
  (0 <= ts < Z.of_nat T)%Z →
  valid_index (shape state) idx →
  let extend_value := expand_dims (length pre) value in
  data (dynamic_update_slice state extend_value
          (<[length pre := ts]> (replicate (ndim extend_value) 0%Z))) idx
  = if ix idx (length pre) =? Z.to_nat ts
    then data value (delete (length pre) idx)
    else data state idx.
Proof.
  intros Hstate Hvalue Hts Hidx extend_value.
  rewrite Hstate in Hidx.
  apply valid_index_app_inv in Hidx
    as (ipre & it & ipost & -> & Hlpre & Hlpost & Hit & Hvpre & Hvpost).
  assert (Hes : shape extend_value = pre ++ 1 :: post).
  { subst extend_value. simpl. rewrite Hvalue.
    rewrite take_app_length, drop_app_length. reflexivity. }
  unfold dynamic_update_slice, ndim. rewrite Hes, Hstate.
  rewrite update_starts by exact Hts. simpl data.
  rewrite window_test by assumption.
  assert (Hix : ix (ipre ++ it :: ipost) (length pre) = it).
  { unfold ix. rewrite <- Hlpre. by rewrite nth_middle. }
  rewrite Hix. destruct (Nat.eqb_spec it (Z.to_nat ts)) as [-> | Hne];
    [|reflexivity].
  rewrite sub_starts by assumption. subst extend_value. simpl.
  rewrite <- Hlpre. f_equal.
  rewrite !(delete_middle ipre). reflexivity.
Qed.

End CacheFacts.

Import Attention Examples.

(** C4: for every state name, value slice and valid time step,
    [extend_decode_state] returns the updated cache tensor, which is the one
    it stores under the name; the tensor holds the value at index
    [time_step] of the time dimension and its old content at every other
    index, and no other entry of the cache changes. *)
Theorem extend_decode_state_writes_one_slice (name : string)
    (value state : JTensor R) (time_step : Z) (pre post : list nat) (T : nat)
    (v : Variables) :
  DECODE_CACHE v !! name = Some state →
  shape state = pre ++ T :: post → shape value = pre ++ post →
  (0 <= time_step < Z.of_nat T)%Z →
  ∃ new_state,
    extend_decode_state name value time_step (length pre) v
    = inr (new_state,
           {| DECODE_CACHE := <[name := new_state]> (DECODE_CACHE v);
              PREFIX_DECODE_CACHE := PREFIX_DECODE_CACHE v |})
    ∧ shape new_state = shape state
    ∧ (∀ idx, valid_index (shape state) idx →
         data new_state idx
         = if ix idx (length pre) =? Z.to_nat time_step
           then data value (delete (length pre) idx)
           else data state idx)
    ∧ (∀ other, other ≠ name →
         <[name := new_state]> (DECODE_CACHE v) !! other
         = DECODE_CACHE v !! other).
Proof.
  intros Hlookup Hstate Hvalue Hts.
  unfold extend_decode_state, mbind, get_decode_state. rewrite Hlookup.
  unfold update_decode_state, mret. eexists. split; [reflexivity|].
  split; [reflexivity|]. split.
  - intros idx Hidx.
    by apply (CacheFacts.dynamic_update_slice_expand_dims state value pre post
                T time_step idx).
  - intros other Hne. by apply lookup_insert_ne.
Qed.

Lemma extend_decode_state_writes_one_slice_witness :
  ∃ new_state,
    extend_decode_state "key_state" (ones [1; 1; 1]) 1 1 example_cache
    = inr (new_state,
           {| DECODE_CACHE :=
                <["key_state" := new_state]> (DECODE_CACHE example_cache);
              PREFIX_DECODE_CACHE := PREFIX_DECODE_CACHE example_cache |})
    ∧ shape new_state = shape (zeros [1; 2; 1; 1])
    ∧ (∀ idx, valid_index (shape (zeros [1; 2; 1; 1])) idx →
         data new_state idx
         = if ix idx 1 =? Z.to_nat 1
           then data (ones [1; 1; 1]) (delete 1 idx)
           else data (zeros [1; 2; 1; 1]) idx)
    ∧ (∀ other, other ≠ "key_state" →
         <["key_state" := new_state]> (DECODE_CACHE example_cache) !! other
         = DECODE_CACHE example_cache !! other).
Proof.
  apply (extend_decode_state_writes_one_slice "key_state" (ones [1; 1; 1])
           (zeros [1; 2; 1; 1]) 1 [1] [1; 1] 2 example_cache).
  - reflexivity.
  - reflexivity.
  - reflexivity.
  - lia.
Defined.


(** ** Unsupported combinations *)

Module RaiseFacts.
Import Attention LayerSpec.

Lemma mbind_step {A B C} (m : M A) (k1 : A → M B) (k2 : A → M C)
    (v : Variables) :
  (∀ a v', m v = inr (a, v') → raises_where_returns (k1 a v') (k2 a v')) →
  raises_where_returns (mbind m k1 v) (mbind m k2 v).
Proof.
  intros Hk r. unfold mbind. destruct (m v) as [e|[a v']]; [discriminate|].
  by apply Hk.
Qed.

Lemma mbind_never {A B} (m : M A) (k : A → M B) (v : Variables) :
  (∀ a v', m v = inr (a, v') → never_returns (k a v')) →
  never_returns (mbind m k v).
Proof.
  intros Hk r. unfold mbind. destruct (m v) as [e|[a v']]; [discriminate|].
  by apply Hk.
Qed.

End RaiseFacts.

(** One step of two runs that start with the same computation. *)
Ltac step_both :=
  first
    [ apply RaiseFacts.mbind_step;
      let H := fresh "Hrun" in intros ? ? H; try discriminate H
    | lazymatch goal with
      | |- LayerSpec.raises_where_returns
             (match ?x with Some _ => _ | None => _ end _) _ =>
          destruct x; [| intros ? ?; discriminate]
      | |- LayerSpec.raises_where_returns ((if ?c then _ else _) _) _ =>
          destruct c eqn:?
      | |- LayerSpec.raises_where_returns ((let (_, _) := ?x in _) _) _ =>
          destruct x
      end ].

(** One step of a run that is shown not to return. *)
Ltac step_never :=
  first
    [ apply RaiseFacts.mbind_never;
      let H := fresh "Hrun" in intros ? ? H; try discriminate H
    | lazymatch goal with
      | |- LayerSpec.never_returns
             (match ?x with Some _ => _ | None => _ end _) =>
          destruct x; [| intros ?; discriminate]
      | |- LayerSpec.never_returns ((if ?c then _ else _) _) =>
          destruct c eqn:?
      | |- LayerSpec.never_returns ((let (_, _) := ?x in _) _) =>
          destruct x
      end ].

Import Attention Examples LayerSpec.

Lemma lpb_extend_step_with_ngrammer (self : DotProductAttention)
    (ng : Ngrammer) (query_vec atten_mask : JTensor R) (time_step : Z)
    (segment_pos : option (JTensor Z)) (v : Variables) :
  ngrammer self = Some ng →
  0 < LPB._broadcast_prefixes_count v →
  never_returns
    (LPB.extend_step self query_vec atten_mask time_step segment_pos v)
  ∧ raises_where_returns
    (LPB.extend_step (without_ngrammer self) query_vec atten_mask
            time_step segment_pos v)
    (LPB.extend_step self query_vec atten_mask time_step segment_pos v).
Proof.
  intros Hng Hpfx. split.
  - unfold LPB.extend_step. rewrite Hng.
    apply RaiseFacts.mbind_never. intros a v' Hcount.
    injection Hcount as <- <-.
    repeat step_never.
    all: match goal with
         | H : (if 0 <? ?c then _ else _) _ = inr _ |- _ =>
             destruct (Nat.ltb_spec 0 c); [discriminate H | lia]
         end.
  - unfold LPB.extend_step.
    change (project_qkv (without_ngrammer self)) with (project_qkv self).
    change (LPB._dot_atten_one_step (without_ngrammer self))
      with (LPB._dot_atten_one_step self).
    cbn [without_ngrammer hparams query key value combined_qkv post
         per_dim_scale atten_dropout dconv_q dconv_k dconv_v
         rotary_position_emb relative_bias ngrammer].
    rewrite Hng.
    apply RaiseFacts.mbind_step. intros a v' Hcount.
    injection Hcount as <- <-.
    repeat step_both.
    all: intros r _; unfold mbind, mraise.
    all: destruct (Nat.ltb_spec 0 (LPB._broadcast_prefixes_count v));
      [reflexivity | lia].
Qed.

Lemma local_call_with_relative_bias `{PyUtils} (self : DotProductAttention)
    (lp : Local.LocalHParams) (mut : Mutable) (rb : RelativeBias)
    (inputs : AttentionInputs) (atten_mask : JTensor R)
    (query_segment_pos key_segment_pos : option (JTensor Z)) (v : Variables) :
  relative_bias self = Some rb →
  never_returns
    (Local.__call__ self lp mut inputs atten_mask query_segment_pos
                    key_segment_pos v).
Proof.
  intros Hrb. unfold Local.__call__, call_with. rewrite Hrb.
  repeat step_never.
  all: repeat match goal with
              | H : lift (bind ?m _) _ = inr _ |- _ =>
                  destruct m; [discriminate H|]; cbn [bind lift ret] in H;
                  injection H as <- <-
              | H : lift (Local._dot_atten _ _ _ _ _ _ (Some _)) _ = inr _
                |- _ => discriminate H
              end.
Qed.

(** C9: the unsupported combinations raise [NotImplementedError] and compute
    nothing instead: [_dot_atten] of [LocalSelfAttention] given a relative
    bias (so [__call__] of a local layer configured with a relative bias
    never returns); [lazy_broadcast_prefix] of the base [DotProductAttention]; and
    [extend_step] of [DotProductAttentionWithLPB] with an n-grammer once a
    prefix has been broadcast, which never returns a value and raises
    [NotImplementedError] on every input on which the same call without the
    n-grammer returns (the inputs that reach the n-grammer branch). *)
Theorem unsupported_combinations_raise `{PyUtils} :
  (∀ self lp query key value atten_mask relative_bias,
     Local._dot_atten self lp query key value atten_mask (Some relative_bias)
     = inl NotImplementedError)
  ∧ (∀ self lp mut rb inputs atten_mask query_segment_pos key_segment_pos v,
       relative_bias self = Some rb →
       never_returns
         (Local.__call__ self lp mut inputs atten_mask query_segment_pos
                         key_segment_pos v))
  ∧ (∀ num_suffix_samples suffix_length v,
       Attention.lazy_broadcast_prefix num_suffix_samples suffix_length v
       = inl NotImplementedError)
  ∧ (∀ self ng query_vec atten_mask time_step segment_pos v,
       ngrammer self = Some ng →
       0 < LPB._broadcast_prefixes_count v →
       never_returns
         (LPB.extend_step self query_vec atten_mask time_step segment_pos v)
       ∧ raises_where_returns
           (LPB.extend_step (without_ngrammer self) query_vec atten_mask
                            time_step segment_pos v)
           (LPB.extend_step self query_vec atten_mask time_step segment_pos
                            v)).
Proof.
  split; [|split; [|split]].
  - reflexivity.
  - intros. by eapply local_call_with_relative_bias.
  - reflexivity.
  - intros. by eapply lpb_extend_step_with_ngrammer.
Qed.


(** * The state after lazy prefix broadcasts (C3) *)

Module NameFacts.

Abbreviation chars := String.list_ascii_of_string.

Lemma chars_app (s t : string) : chars (s +:+ t) = chars s ++ chars t.
Proof. induction s as [|c s IH]; simpl; [done|by rewrite IH]. Qed.

Lemma chars_inj (s t : string) : chars s = chars t → s = t.
Proof.
  intros Heq. rewrite <- (String.string_of_list_ascii_of_string s).
  rewrite <- (String.string_of_list_ascii_of_string t). by rewrite Heq.
Qed.

(** The last occurrence of a separator splits a list in one way only. *)
Lemma split_at_last {A} (x : A) (l1 l2 d1 d2 : list A) :
  x ∉ d1 → x ∉ d2 → l1 ++ x :: d1 = l2 ++ x :: d2 → l1 = l2 ∧ d1 = d2.
Proof.
  revert l2. induction l1 as [|a l1 IH]; intros [|b l2] H1 H2 Heq;
    simplify_eq/=.
  - done.
  - exfalso. apply H1. set_solver.
  - exfalso. apply H2. set_solver.
  - destruct (IH l2) as [-> ->]; done.
Qed.

Lemma pretty_N_go_digits (x : N) (s : string) :
  "_"%char ∉ chars s → "_"%char ∉ chars (pretty_N_go x s).
Proof.
  revert s. induction (N.lt_wf_0 x) as [x _ IH]; intros s Hs.
  assert (x = 0 ∨ 0 < x)%N as [->|Hpos] by lia.
  - by rewrite pretty_N_go_0.
  - rewrite pretty_N_go_step by done. apply IH.
    { by apply N.div_lt. }
    simpl. rewrite not_elem_of_cons. split; [|done].
    unfold pretty_N_char. by repeat case_match.
Qed.

Lemma pretty_nat_digits (i : nat) : "_"%char ∉ chars (pretty i).
Proof.
  unfold pretty, pretty_nat, pretty, pretty_N. case_decide.
  - simpl. set_solver.
  - apply pretty_N_go_digits. simpl. set_solver.
Qed.

(** The name of a prefix chunk determines the state and the chunk. *)
Lemma pfx_name_inj (n1 n2 : string) (i j : nat) :
  LPB.pfx_name n1 i = LPB.pfx_name n2 j → n1 = n2 ∧ i = j.
Proof.
  unfold LPB.pfx_name. intros Heq. apply (f_equal chars) in Heq.
  rewrite !chars_app in Heq. simpl in Heq.
  change (?a :: ?l ++ ?r) with ((a :: l) ++ r) in Heq.
  rewrite !(assoc_L (++)) in Heq.
  apply app_inj_2 in Heq as [Heq _]; [|done].
  apply split_at_last in Heq as [H1 H2]; try apply pretty_nat_digits.
  split; [by apply chars_inj|].
  apply chars_inj in H2. by apply (inj pretty) in H2.
Qed.

End NameFacts.

Module PrefixFacts.
Import Attention.

Abbreviation key_pfx := (LPB.pfx_name "key_state").

(** A map that holds the first [n] prefix names has [n] entries at
    least. *)
Lemma names_fit_size (pfx : gmap string (JTensor R)) (n : nat) :
  (∀ j, j < n → is_Some (pfx !! key_pfx j)) → n ≤ size pfx.
Proof.
  revert pfx. induction n as [|n IH]; intros pfx Hall; [lia|].
  assert (n ≤ size (delete (key_pfx n) pfx)) as Hle.
  { apply IH. intros j Hj. rewrite lookup_delete_ne; [apply Hall; lia|].
    intros [_ ?]%NameFacts.pfx_name_inj. lia. }
  rewrite map_size_delete_Some in Hle by (apply Hall; lia).
  destruct (Hall n) as [x Hx]; [lia|].
  assert (size pfx ≠ 0); [|lia].
  intros ->%map_size_empty_inv. by rewrite lookup_empty in Hx.
Qed.

Lemma count_prefixes_spec (fuel : nat) (pfx : gmap string (JTensor R))
    (count : nat) :
  let c := LPB.count_prefixes fuel pfx count in
  count ≤ c ≤ count + fuel
  ∧ (∀ j, count ≤ j < c → is_Some (pfx !! key_pfx j))
  ∧ (c < count + fuel → pfx !! key_pfx c = None).
Proof.
  revert count. induction fuel as [|fuel IH]; intros count; simpl.
  - split; [lia|]. split; intros; lia.
  - case_bool_decide as Hsome.
    + destruct (IH (S count)) as (Hle & Hall & Hnone).
      split; [lia|]. split.
      * intros j Hj. destruct (decide (j = count)) as [->|]; [done|].
        apply Hall. lia.
      * intros Hlt. apply Hnone. lia.
    + split; [lia|]. split; [intros; lia|].
      intros _. by apply eq_None_not_Some.
Qed.

(** The loop of [_broadcast_prefixes_count] ends at the first name that the
    prefix collection does not hold. *)
Lemma broadcast_prefixes_count_first_missing
    (pfx : gmap string (JTensor R)) (k : nat) :
  (∀ j, j < k → is_Some (pfx !! key_pfx j)) →
  pfx !! key_pfx k = None →
  LPB.count_prefixes (S (size pfx)) pfx 0 = k.
Proof.
  intros Hall Hnone.
  destruct (count_prefixes_spec (S (size pfx)) pfx 0) as (Hle & Hc & Hstop).
  set (c := LPB.count_prefixes (S (size pfx)) pfx 0) in *.
  assert (c ≤ size pfx) as Hsize.
  { apply names_fit_size. intros j Hj. apply Hc. lia. }
  specialize (Hstop ltac:(lia)).
  destruct (Nat.lt_trichotomy c k) as [Hlt|[Heq|Hgt]]; [|done|].
  - destruct (Hall c Hlt) as [x Hx]. congruence.
  - destruct (Hc k ltac:(lia)) as [x Hx]. congruence.
Qed.

End PrefixFacts.

Module BroadcastFacts.
Import Attention NameFacts PrefixFacts.

Abbreviation prefixes v := (default ∅ (PREFIX_DECODE_CACHE v)).

(** What one [lazy_broadcast_prefix] call does to the two collections:
    every decoding state is frozen under its prefix name and replaced by
    zeros of the suffix shape. *)
Lemma lazy_broadcast_prefix_effect (mut : Mutable)
    (num_suffix_samples suffix_length : nat) (v v' : Variables) :
  LPB.lazy_broadcast_prefix mut num_suffix_samples suffix_length v
  = inr (tt, v') →
  let prev := LPB._broadcast_prefixes_count v in
  (∀ name,
     DECODE_CACHE v' !! name
     = (λ st, zeros (LPB.suffix_shape (shape st) prev num_suffix_samples
                                      suffix_length))
       <$> DECODE_CACHE v !! name)
  ∧ (∀ name j,
       prefixes v' !! LPB.pfx_name name j
       = if decide (j = prev)
         then match DECODE_CACHE v !! name with
              | Some st => Some st
              | None => prefixes v !! LPB.pfx_name name j
              end
         else prefixes v !! LPB.pfx_name name j).
Proof.
  intros Hrun prev. revert Hrun.
  unfold LPB.lazy_broadcast_prefix, mbind at 1, LPB.broadcast_prefixes_count.
  fold prev.
  enough (∀ m (w w' : Variables),
    map_fold
      (λ name state (loop : M unit),
         loop ;;;
         (if mutable_PREFIX_DECODE_CACHE mut then mret tt
          else mraise AssertionError) ;;;
         put_prefix_variable (LPB.pfx_name name prev) state ;;;
         update_decode_state name
           (zeros (LPB.suffix_shape (shape state) prev num_suffix_samples
                                    suffix_length)))
      (mret tt) m w = inr (tt, w') →
    (∀ name,
       DECODE_CACHE w' !! name
       = match m !! name with
         | Some st =>
             Some (zeros (LPB.suffix_shape (shape st) prev
                            num_suffix_samples suffix_length))
         | None => DECODE_CACHE w !! name
         end)
    ∧ (∀ name j,
         prefixes w' !! LPB.pfx_name name j
         = if decide (j = prev)
           then match m !! name with
                | Some st => Some st
                | None => prefixes w !! LPB.pfx_name name j
                end
           else prefixes w !! LPB.pfx_name name j)) as Hfold.
  { intros Hrun. destruct (Hfold _ _ _ Hrun) as [Hd Hp]. split.
    - intros name. rewrite Hd. by destruct (DECODE_CACHE v !! name).
    - done. }
  intros m. apply (map_fold_weak_ind (λ (r : M unit) m,
    ∀ w w' : Variables, r w = inr (tt, w') →
    (∀ name,
       DECODE_CACHE w' !! name
       = match m !! name with
         | Some st =>
             Some (zeros (LPB.suffix_shape (shape st) prev
                            num_suffix_samples suffix_length))
         | None => DECODE_CACHE w !! name
         end)
    ∧ (∀ name j,
         prefixes w' !! LPB.pfx_name name j
         = if decide (j = prev)
           then match m !! name with
                | Some st => Some st
                | None => prefixes w !! LPB.pfx_name name j
                end
           else prefixes w !! LPB.pfx_name name j))); clear m.
  - intros w w' [= <-]. split.
    + intros name. by rewrite lookup_empty.
    + intros name j. rewrite lookup_empty. by case_decide.
  - intros i x m r Hi IH w w'. unfold mbind at 1.
    destruct (r w) as [e|[[] w1]] eqn:Hr; [done|].
    destruct (IH _ _ Hr) as [Hd Hp].
    destruct (mutable_PREFIX_DECODE_CACHE mut); [|done].
    intros [= <-]. simpl. split.
    + intros name. destruct (decide (name = i)) as [->|Hne].
      * by rewrite !lookup_insert_eq.
      * rewrite !lookup_insert_ne by done. apply Hd.
    + intros name j.
      destruct (decide (LPB.pfx_name i prev = LPB.pfx_name name j))
        as [Heq|Hne].
      * rewrite <- Heq. apply pfx_name_inj in Heq as [<- <-].
        rewrite !lookup_insert_eq. by rewrite decide_True.
      * rewrite lookup_insert_ne by done. rewrite Hp.
        case_decide as Hj; [|done]. subst j.
        rewrite lookup_insert_ne; [done|]. by intros ->.
Qed.

End BroadcastFacts.

Module RunFacts.
Import Attention NameFacts PrefixFacts BroadcastFacts LPBSpec.

Lemma sum_list_snoc (l : list nat) (x : nat) :
  sum_list (l ++ [x]) = sum_list l + x.
Proof. induction l as [|y l IH]; simpl; lia. Qed.

Lemma prefix_lookup (v : Variables) (name : string) :
  PREFIX_DECODE_CACHE v ≫= (λ m, m !! name) = prefixes v !! name.
Proof. by destruct (PREFIX_DECODE_CACHE v). Qed.

Lemma holds_prefixes_count (v : Variables) (lens : list nat) :
  holds_prefixes v lens → LPB._broadcast_prefixes_count v = length lens.
Proof.
  intros [Hall Hnone]. unfold LPB._broadcast_prefixes_count.
  destruct (PREFIX_DECODE_CACHE v) as [pfx|] eqn:Hpfx; simpl in *.
  - apply broadcast_prefixes_count_first_missing.
    + intros j Hj. destruct (Hall j Hj) as (x & Hx & _). by exists x.
    + by apply Hnone.
  - destruct lens as [|l lens]; [done|].
    destruct (Hall 0) as (x & Hx & _); [simpl; lia|].
    by rewrite lookup_empty in Hx.
Qed.

Lemma prefix_length_loop (v : Variables) (lens : list nat) (k : nat) :
  holds_prefixes v lens → k ≤ length lens →
  foldl (λ (acc : M nat) i,
           prefix_length <- acc ;
           x <- get_prefix_variable (LPB.pfx_name "key_state" i) ;
           mret (prefix_length + ix (shape x) (i + 1)))
        (mret 0) (seq 0 k) v
  = inr (sum_list (take k lens), v).
Proof.
  intros [Hall _]. induction k as [|k IH]; intros Hk; [done|].
  rewrite seq_S, foldl_app. simpl. unfold mbind at 1.
  rewrite IH by lia. unfold mbind, get_prefix_variable.
  rewrite prefix_lookup. destruct (Hall k) as (x & -> & Hx); [lia|].
  unfold mret. rewrite Hx. do 2 f_equal.
  destruct (lookup_lt_is_Some_2 lens k) as [l Hl]; [lia|].
  rewrite (take_S_r _ _ _ Hl), sum_list_snoc.
  rewrite nth_lookup, Hl. simpl. lia.
Qed.

(** [_broadcast_prefix_length] is the sum of the time lengths of the frozen
    key prefixes. *)
Lemma holds_prefixes_length (v : Variables) (lens : list nat) :
  holds_prefixes v lens →
  LPB._broadcast_prefix_length v = inr (sum_list lens, v).
Proof.
  intros Hv. unfold LPB._broadcast_prefix_length, mbind at 1.
  unfold LPB.broadcast_prefixes_count.
  rewrite (holds_prefixes_count v lens Hv).
  rewrite (prefix_length_loop v lens (length lens) Hv) by lia.
  by rewrite take_ge by lia.
Qed.

Lemma suffix_shape_length (sh : list nat) (prev n l : nat) :
  prev + 2 ≤ length sh →
  length (LPB.suffix_shape sh prev n l) = S (length sh).
Proof.
  intros Hlen. unfold LPB.suffix_shape.
  rewrite !length_app, length_take, length_drop. simpl. lia.
Qed.

Lemma suffix_shape_time (sh : list nat) (prev n l : nat) :
  prev + 2 ≤ length sh →
  ix (LPB.suffix_shape sh prev n l) (prev + 2) = l.
Proof.
  intros Hlen. unfold LPB.suffix_shape, ix.
  rewrite nth_lookup, lookup_app_r; rewrite length_take; [|lia].
  by replace (prev + 2 - (prev + 1) `min` length sh) with 1 by lia.
Qed.

Lemma suffix_shape_batch (sh : list nat) (prev n l : nat) :
  prev + 2 ≤ length sh →
  take (prev + 2) (LPB.suffix_shape sh prev n l) = take (prev + 1) sh ++ [n].
Proof.
  intros Hlen. unfold LPB.suffix_shape.
  rewrite take_app, length_take, take_take.
  replace (prev + 2 - (prev + 1) `min` length sh) with 1 by lia.
  by replace ((prev + 2) `min` (prev + 1)) with (prev + 1) by lia.
Qed.

Lemma frozen_lengths_length (T : nat) (bs : list (nat * nat)) :
  length (frozen_lengths T bs) = length bs.
Proof.
  revert T. induction bs as [|[n l] bs IH]; intros T; simpl; [done|].
  by rewrite IH.
Qed.

(** One call freezes the key state as the next prefix. *)
Lemma broadcast_step (mut : Mutable) (n l : nat) (v v' : Variables)
    (lens : list nat) (ks : JTensor R) :
  holds_prefixes v lens →
  DECODE_CACHE v !! "key_state" = Some ks →
  LPB.lazy_broadcast_prefix mut n l v = inr (tt, v') →
  holds_prefixes v' (lens ++ [ix (shape ks) (length lens + 1)])
  ∧ DECODE_CACHE v' !! "key_state"
    = Some (zeros (LPB.suffix_shape (shape ks) (length lens) n l)).
Proof.
  intros Hv Hks Hrun.
  destruct (lazy_broadcast_prefix_effect _ _ _ _ _ Hrun) as [Hd Hp].
  rewrite (holds_prefixes_count v lens Hv) in Hd, Hp.
  destruct Hv as [Hall Hnone]. split; [split|].
  - intros j Hj. rewrite length_app in Hj. simpl in Hj. rewrite Hp.
    case_decide as Hjl.
    + subst j. rewrite Hks. eexists. split; [done|].
      by rewrite app_nth2, Nat.sub_diag by lia.
    + destruct (Hall j) as (x & Hx & Hlen); [lia|]. exists x.
      split; [done|]. by rewrite app_nth1 by lia.
  - intros j Hj. rewrite length_app in Hj. simpl in Hj. rewrite Hp.
    rewrite decide_False by lia. apply Hnone. lia.
  - by rewrite Hd, Hks.
Qed.

(** A run of calls from a state that holds the prefixes [lens] leaves the
    prefixes [lens] followed by the lengths frozen by the run. *)
Lemma broadcast_all_state (mut : Mutable) (bs : list (nat * nat))
    (v v' : Variables) (lens : list nat) (ks : JTensor R) :
  holds_prefixes v lens →
  DECODE_CACHE v !! "key_state" = Some ks →
  length lens + 2 ≤ ndim ks →
  broadcast_all mut bs v = inr (tt, v') →
  holds_prefixes v'
    (lens ++ frozen_lengths (ix (shape ks) (length lens + 1)) bs)
  ∧ ∃ ks', DECODE_CACHE v' !! "key_state" = Some ks'
           ∧ length lens + length bs + 2 ≤ ndim ks'.
Proof.
  revert v lens ks. induction bs as [|[n l] bs IH]; intros v lens ks.
  - intros Hv Hks Hlen [= <-]. simpl. rewrite app_nil_r.
    split; [done|]. exists ks. split; [done|lia].
  - intros Hv Hks Hlen Hrun. simpl in Hrun. unfold mbind at 1 in Hrun.
    destruct (LPB.lazy_broadcast_prefix mut n l v) as [e|[[] v1]] eqn:Hstep;
      [done|].
    destruct (broadcast_step _ _ _ _ _ _ _ Hv Hks Hstep) as [Hv1 Hks1].
    destruct (IH _ _ _ Hv1 Hks1) as [Hv' (ks' & Hks' & Hlen')].
    + unfold ndim in *. simpl. rewrite suffix_shape_length by lia.
      rewrite length_app. simpl. lia.
    + done.
    + rewrite length_app in Hv', Hlen'. simpl in Hv', Hlen'.
      replace (length lens + 1 + 1) with (length lens + 2) in Hv' by lia.
      rewrite suffix_shape_time in Hv' by (unfold ndim in Hlen; lia).
      rewrite <- (assoc_L (++)) in Hv'. simpl in Hv'.
      split; [done|]. exists ks'. split; [done|]. simpl. lia.
Qed.

End RunFacts.


(** * The write of [extend_step] under lazy prefix broadcast (C3) *)

Module FrameFacts.
Import Attention LayerSpec.

Lemma mbind_inr {A B} (m : M A) (k : A → M B) (v : Variables)
    (r : B * Variables) :
  mbind m k v = inr r → ∃ a v1, m v = inr (a, v1) ∧ k a v1 = inr r.
Proof.
  unfold mbind. destruct (m v) as [e|[a v1]]; [done|]. intros Hk.
  by exists a, v1.
Qed.

Lemma lift_inr {A} (x : result A) (v v' : Variables) (a : A) :
  lift x v = inr (a, v') → x = inr a ∧ v' = v.
Proof. unfold lift. destruct x; [done|]. by intros [= <- <-]. Qed.

Section frame.
Context (P : Variables → Variables → Prop) `{!PreOrder P}.

Lemma preserves_mret {A} (a : A) : preserves P (mret a).
Proof. intros v a' v' [= _ <-]. reflexivity. Qed.

Lemma preserves_mraise {A} (e : exn) : preserves P (@mraise A e).
Proof. intros v a v' [=]. Qed.

Lemma preserves_lift {A} (x : result A) : preserves P (lift x).
Proof. intros v a v' [_ ->]%lift_inr. reflexivity. Qed.

Lemma preserves_read {A} (f : Variables → result A) :
  preserves P (λ v, lift (f v) v).
Proof. intros v a v' [_ ->]%lift_inr. reflexivity. Qed.

Lemma preserves_mbind {A B} (m : M A) (k : A → M B) :
  preserves P m → (∀ a, preserves P (k a)) → preserves P (mbind m k).
Proof.
  intros Hm Hk v b v' (a & v1 & H1 & H2)%mbind_inr.
  transitivity v1; [by eapply Hm|by eapply Hk].
Qed.

Lemma preserves_get_decode_state (name : string) :
  preserves P (get_decode_state name).
Proof. intros v a v' [= _ <-]. reflexivity. Qed.

Lemma preserves_get_prefix_variable (name : string) :
  preserves P (get_prefix_variable name).
Proof.
  intros v a v'. unfold get_prefix_variable.
  destruct (_ ≫= _); [|done]. intros [= _ <-]. reflexivity.
Qed.

Lemma preserves_broadcast_prefixes_count :
  preserves P LPB.broadcast_prefixes_count.
Proof. intros v a v' [= _ <-]. reflexivity. Qed.

Lemma preserves_foldl {A B} (f : M A → B → M A) (init : M A) (l : list B) :
  preserves P init → (∀ acc i, preserves P acc → preserves P (f acc i)) →
  preserves P (foldl f init l).
Proof.
  intros Hinit Hf. revert init Hinit.
  induction l as [|i l IH]; intros init Hinit; simpl; [done|].
  apply IH. by apply Hf.
Qed.

Lemma preserves_foldr {A B} (f : B → M A → M A) (init : M A) (l : list B) :
  preserves P init → (∀ i acc, preserves P acc → preserves P (f i acc)) →
  preserves P (foldr f init l).
Proof.
  intros Hinit Hf. induction l as [|i l IH]; simpl; [done|]. by apply Hf.
Qed.

End frame.

Global Instance same_entry_preorder (name : string) :
  PreOrder (same_entry name).
Proof.
  split; [done|]. intros v1 v2 v3 H12 H23. unfold same_entry in *. congruence.
Qed.

Lemma extend_decode_state_same_entry (name other : string)
    (value : JTensor R) (time_step : Z) (time_dim : nat) :
  other ≠ name →
  preserves (same_entry name)
            (extend_decode_state other value time_step time_dim).
Proof.
  intros Hne v a v'. unfold extend_decode_state, mbind, get_decode_state.
  destruct (DECODE_CACHE v !! other); [|done].
  intros [= _ <-]. unfold same_entry. simpl. by rewrite lookup_insert_ne.
Qed.

End FrameFacts.

(** One step of a proof that a computation preserves a relation between
    the states. *)
Ltac frame_step :=
  first
    [ apply FrameFacts.preserves_mret; try tc_solve
    | apply FrameFacts.preserves_mraise; try tc_solve
    | apply FrameFacts.preserves_lift; try tc_solve
    | apply FrameFacts.preserves_read; try tc_solve
    | apply FrameFacts.preserves_get_decode_state; try tc_solve
    | apply FrameFacts.preserves_get_prefix_variable; try tc_solve
    | apply FrameFacts.preserves_broadcast_prefixes_count; try tc_solve
    | apply FrameFacts.extend_decode_state_same_entry; discriminate
    | assumption
    | apply FrameFacts.preserves_mbind; try tc_solve; [|intros ?]
    | apply FrameFacts.preserves_foldl; try tc_solve; [|intros ? ? ?]
    | apply FrameFacts.preserves_foldr; try tc_solve; [|intros ? ? ?]
    | lazymatch goal with
      | |- LayerSpec.preserves _ (match ?x with _ => _ end) => destruct x
      end ].

Module LPBFrame.
Import Attention LayerSpec FrameFacts.

Section read_only.
Context (self : DotProductAttention).
Context (P : Variables → Variables → Prop) `{!PreOrder P}.

Lemma preserves_broadcast_prefix_length :
  preserves P LPB._broadcast_prefix_length.
Proof. unfold LPB._broadcast_prefix_length. repeat frame_step. Qed.

Lemma preserves_decoding_state_sequence_length :
  preserves P LPB.decoding_state_sequence_length.
Proof.
  unfold LPB.decoding_state_sequence_length.
  repeat first [apply preserves_broadcast_prefix_length | frame_step].
Qed.

Lemma preserves_left_concat_decode_state (name : string) (size : nat) :
  preserves P (LPB._left_concat_decode_state name size).
Proof. unfold LPB._left_concat_decode_state. repeat frame_step. Qed.

Lemma preserves_run_with_all_decode_state_chunks fn chunk_inputs
    args_to_slice args_time_dims broadcast_args_to_slice
    broadcast_args_time_dims state_names combine_results :
  preserves P
    (LPB._run_with_all_decode_state_chunks fn chunk_inputs args_to_slice
       args_time_dims broadcast_args_to_slice broadcast_args_time_dims
       state_names combine_results).
Proof. unfold LPB._run_with_all_decode_state_chunks. repeat frame_step. Qed.

Lemma preserves_dot_atten_one_step query key_state_name value_state_name
    atten_mask relative_bias :
  preserves P
    (LPB._dot_atten_one_step self query key_state_name value_state_name
       atten_mask relative_bias).
Proof.
  unfold LPB._dot_atten_one_step.
  repeat first [apply preserves_run_with_all_decode_state_chunks
               | frame_step].
Qed.

End read_only.

End LPBFrame.

Module WriteFacts.
Import Attention LayerSpec LPBSpec FrameFacts LPBFrame.

(** What [extend_decode_state] stores, whatever the time step. *)
Lemma extend_decode_state_inr (name : string) (value : JTensor R)
    (time_step : Z) (time_dim : nat) (v v' : Variables) (r : JTensor R) :
  extend_decode_state name value time_step time_dim v = inr (r, v') →
  ∃ state,
    DECODE_CACHE v !! name = Some state
    ∧ DECODE_CACHE v' !! name
      = Some (dynamic_update_slice state (expand_dims time_dim value)
                (<[time_dim := time_step]>
                   (replicate (ndim (expand_dims time_dim value)) 0%Z)))
    ∧ (∀ other, other ≠ name →
         DECODE_CACHE v' !! other = DECODE_CACHE v !! other)
    ∧ PREFIX_DECODE_CACHE v' = PREFIX_DECODE_CACHE v.
Proof.
  unfold extend_decode_state, mbind, get_decode_state.
  destruct (DECODE_CACHE v !! name) as [state|]; [|done].
  intros [= _ <-]. exists state. simpl.
  rewrite lookup_insert_eq. repeat split.
  intros other Hne. by rewrite lookup_insert_ne.
Qed.

(** The statements of [LPB.extend_step] after the writes of the key and of
    the value leave the key state and the value state as they are. *)
Lemma extend_step_writes (self : DotProductAttention)
    (query_vec atten_mask : JTensor R) (time_step : Z)
    (segment_pos : option (JTensor Z)) (v v' : Variables) (out : JTensor R)
    (prefix_length : nat) :
  LPB._broadcast_prefix_length v = inr (prefix_length, v) →
  LPB.extend_step self query_vec atten_mask time_step segment_pos v
  = inr (out, v') →
  let pfx_count := LPB._broadcast_prefixes_count v in
  let index := (time_step - Z.of_nat prefix_length)%Z in
  ∀ name sel, (name, sel) ∈ key_value_states →
    ∃ state new_proj,
      DECODE_CACHE v !! name = Some state
      ∧ new_projection self sel query_vec v = inr new_proj
      ∧ DECODE_CACHE v' !! name
        = Some (dynamic_update_slice state
                  (expand_dims (1 + pfx_count) new_proj)
                  (<[1 + pfx_count := index]>
                     (replicate
                        (ndim (expand_dims (1 + pfx_count) new_proj))
                        0%Z))).
Proof.
  intros Hlen Hrun pfx_count index. unfold LPB.extend_step in Hrun.
  apply mbind_inr in Hrun as (c & w1 & [= <- <-] & Hrun).
  apply mbind_inr in Hrun as (ks & w2 & [= <- <-] & Hrun).
  destruct (DECODE_CACHE v !! "key_state") as [key_state|] eqn:Hks; [|done].
  fold pfx_count in Hrun.
  apply mbind_inr in Hrun as (nq & w3 & [Hq ->]%lift_inr & Hrun).
  apply mbind_inr in Hrun as (nk & w4 & [Hk ->]%lift_inr & Hrun).
  apply mbind_inr in Hrun as (nv & w5 & [Hv ->]%lift_inr & Hrun).
  apply mbind_inr in Hrun as (pl & w6 & Hpl & Hrun).
  rewrite Hlen in Hpl. injection Hpl as <- <-. fold index in Hrun.
  apply mbind_inr in Hrun as (r1 & v1 & Hw1 & Hrun).
  apply mbind_inr in Hrun as (r2 & v2 & Hw2 & Hrun).
  apply extend_decode_state_inr in Hw1 as (s1 & Hs1 & Hn1 & Ho1 & _).
  apply extend_decode_state_inr in Hw2 as (s2 & Hs2 & Hn2 & Ho2 & _).
  assert (same_entry "key_state" v2 v' ∧ same_entry "value_state" v2 v')
    as [Hkeep_k Hkeep_v].
  { split.
    all: revert Hrun; generalize v2 out v'.
    all: match goal with |- ∀ a b c, ?m a = inr (b, c) → ?P a c =>
           change (preserves P m) end.
    all: repeat first
           [ apply preserves_broadcast_prefix_length; tc_solve
           | apply preserves_decoding_state_sequence_length; tc_solve
           | apply preserves_left_concat_decode_state; tc_solve
           | apply preserves_dot_atten_one_step; tc_solve
           | frame_step ]. }
  intros name sel Hin. unfold key_value_states in Hin.
  apply elem_of_cons in Hin as [[= -> ->]|Hin];
    [|apply list_elem_of_singleton in Hin as [= -> ->]].
  - exists s1, nk. split; [done|]. split.
    + unfold new_projection. fold pfx_count. by rewrite Hks.
    + rewrite Hkeep_k, Ho2 by done. apply Hn1.
  - exists s2, nv. split; [by rewrite <- Ho1|]. split.
    + unfold new_projection. fold pfx_count. by rewrite Hks.
    + rewrite Hkeep_v. apply Hn2.
Qed.

End WriteFacts.

Import Attention LayerSpec LPBSpec Examples.

Lemma returns_inr {A} (x : result A) : returns x = true → ∃ r, x = inr r.
Proof. destruct x as [e|r]; [done|]. by exists r. Qed.

(** X1: after any run of [lazy_broadcast_prefix] calls from a state without
    prefixes, [extend_step] of [DotProductAttentionWithLPB] stores the new
    key and the new value by [dynamic_update_slice] along dimension
    [1 + number of calls], at the index [time_step] minus the sum of the time
    lengths of the frozen key prefixes, which is what
    [_broadcast_prefix_length] returns; an index inside the live suffix is
    the position that receives the projection, and every other position
    keeps its content. *)
Theorem lpb_extend_step_writes_at_suffix_index
    (self : DotProductAttention) (mut : Mutable) (v0 v v' : Variables)
    (key0 : JTensor R) (bs : list (nat * nat))
    (query_vec atten_mask : JTensor R) (time_step : Z)
    (segment_pos : option (JTensor Z)) (out : JTensor R) :
  default ∅ (PREFIX_DECODE_CACHE v0) = ∅ →
  DECODE_CACHE v0 !! "key_state" = Some key0 →
  2 ≤ ndim key0 →
  broadcast_all mut bs v0 = inr (tt, v) →
  LPB.extend_step self query_vec atten_mask time_step segment_pos v
  = inr (out, v') →
  let pfx_count := length bs in
  let prefix_length := sum_list (frozen_lengths (ix (shape key0) 1) bs) in
  let index := (time_step - Z.of_nat prefix_length)%Z in
  LPB._broadcast_prefixes_count v = pfx_count
  ∧ LPB._broadcast_prefix_length v = inr (prefix_length, v)
  ∧ ∀ name sel, (name, sel) ∈ key_value_states →
      ∃ state new_proj new_state,
        DECODE_CACHE v !! name = Some state
        ∧ new_projection self sel query_vec v = inr new_proj
        ∧ DECODE_CACHE v' !! name = Some new_state
        ∧ new_state
          = dynamic_update_slice state
              (expand_dims (1 + pfx_count) new_proj)
              (<[1 + pfx_count := index]>
                 (replicate (ndim (expand_dims (1 + pfx_count) new_proj))
                            0%Z))
        ∧ ∀ pre post T idx,
            shape state = pre ++ T :: post → length pre = 1 + pfx_count →
            shape new_proj = pre ++ post →
            (0 <= index < Z.of_nat T)%Z →
            valid_index (shape state) idx →
            data new_state idx
            = if ix idx (1 + pfx_count) =? Z.to_nat index
              then data new_proj (delete (1 + pfx_count) idx)
              else data state idx.
Proof.
  intros Hfresh Hkey0 Hrank Hbs Hrun pfx_count prefix_length index.
  assert (holds_prefixes v0 []) as Hv0.
  { split; [simpl; intros; lia|]. intros j _. rewrite Hfresh.
    apply lookup_empty. }
  destruct (RunFacts.broadcast_all_state mut bs v0 v [] key0 Hv0 Hkey0)
    as [Hv _]; [simpl; lia|done|].
  simpl in Hv. fold prefix_length in Hv.
  pose proof (RunFacts.holds_prefixes_count _ _ Hv) as Hcount.
  rewrite RunFacts.frozen_lengths_length in Hcount. fold pfx_count in Hcount.
  pose proof (RunFacts.holds_prefixes_length _ _ Hv) as Hlen.
  split; [done|]. split; [done|].
  intros name sel Hin.
  destruct (WriteFacts.extend_step_writes self query_vec atten_mask
              time_step segment_pos v v' out _ Hlen Hrun name sel Hin)
    as (state & new_proj & Hstate & Hproj & Hnew).
  rewrite Hcount in Hnew. eexists state, new_proj, _.
  split; [done|]. split; [done|]. split; [exact Hnew|]. split; [done|].
  intros pre post T idx Hshape Hpre Hproj_shape Hindex Hidx.
  rewrite <- Hpre.
  by apply (CacheFacts.dynamic_update_slice_expand_dims state new_proj pre
              post T index idx).
Qed.

Lemma lpb_extend_step_writes_at_suffix_index_witness :
  ∃ out v',
    LPB.extend_step (example_layer 0 None) (ones [2; 1]) (zeros [1; 1; 4]) 2
                    None example_broadcast_cache
    = inr (out, v')
    ∧ LPB._broadcast_prefixes_count example_broadcast_cache = 1
    ∧ LPB._broadcast_prefix_length example_broadcast_cache
      = inr (2, example_broadcast_cache)
    ∧ ∀ name sel, (name, sel) ∈ key_value_states →
        ∃ state new_proj new_state,
          DECODE_CACHE example_broadcast_cache !! name = Some state
          ∧ new_projection (example_layer 0 None) sel (ones [2; 1])
                           example_broadcast_cache
            = inr new_proj
          ∧ DECODE_CACHE v' !! name = Some new_state
          ∧ new_state
            = dynamic_update_slice state (expand_dims 2 new_proj)
                (<[2 := 0%Z]>
                   (replicate (ndim (expand_dims 2 new_proj)) 0%Z))
          ∧ ∀ pre post T idx,
              shape state = pre ++ T :: post → length pre = 2 →
              shape new_proj = pre ++ post →
              (0 <= 0 < Z.of_nat T)%Z →
              valid_index (shape state) idx →
              data new_state idx
              = if ix idx 2 =? Z.to_nat 0
                then data new_proj (delete 2 idx)
                else data state idx.
Proof.
  destruct (returns_inr
              (LPB.extend_step (example_layer 0 None) (ones [2; 1])
                 (zeros [1; 1; 4]) 2 None example_broadcast_cache))
    as [[out v'] Hrun].
  { unfold LPB.extend_step, LPB._dot_atten_one_step, one_step_padded_logits,
      _cap_logits.
    cbn [atten_logit_cap hparams example_layer example_hparams].
    destruct (Req_EM_T 0 0) as [_|Hne]; [|done]. vm_compute. reflexivity. }
  exists out, v'. split; [exact Hrun|].
  apply (lpb_extend_step_writes_at_suffix_index (example_layer 0 None)
           example_mutable example_cache example_broadcast_cache v'
           (zeros [1; 2; 1; 1]) [(2, 2)] (ones [2; 1]) (zeros [1; 1; 4]) 2
           None out).
  - reflexivity.
  - reflexivity.
  - unfold ndim. simpl. lia.
  - vm_compute. reflexivity.
  - exact Hrun.
Defined.

